(** * mcp-weather: the command-line chat client [client.py]

    A shallow embedding of [MCPClient] (tool invocation, query routing, the
    chat loop and the lifecycle in [main]) together with the properties the
    specification states about it.

    Modelling conventions.
    - A Python [str] is a Rocq [string] read as a sequence of code points:
      the character of number [n] stands for the code point [n], so the
      texts of the model are those of code points below 256 (the first 128
      are ASCII; 160 is the no-break space; 223 is the sharp s).  The text
      operations the client uses ([lower], [upper], [strip], [split], [in])
      are written out on these code points as Python has them.  A text
      with a code point from 256 on has no counterpart in the model.
    - A Python [float] is a binary64 [PrimFloat.float]; the builtin parser
      [float(str)] is a field of the environment.
    - A [dict] is an insertion-ordered association list, as the order of
      [keys()] is printed at start-up.
    - Effects (the standard streams, the remote tool provider, the chat
      model, the attributes of [self]) are threaded through a state and
      exception monad; what the outside world answers is an environment
      record whose oracles see the events so far. *)

From Stdlib Require Import String Ascii List Bool Arith Lia PrimFloat.
Import ListNotations.
Local Open Scope string_scope.
Local Open Scope list_scope.

Set Implicit Arguments.

(** String concatenation, Python's [+] on [str]. *)
Infix "+:+" := String.append (at level 60, right associativity).

(* ------------------------------------------------------------------ *)
(** ** Python strings                                                   *)
(* ------------------------------------------------------------------ *)

Module PyStr.

(** The line feed character, Python's ["\n"]. *)
Definition LF : string := String (ascii_of_nat 10) EmptyString.

(** The no-break space, code point 160, and the sharp s, code point 223. *)
Definition NBSP : string := String (ascii_of_nat 160) EmptyString.
Definition SHARP_S : string := String (ascii_of_nat 223) EmptyString.

(** The ASCII capital letters and the ASCII small letters. *)
Definition is_upper (c : ascii) : bool :=
  let n := nat_of_ascii c in Nat.leb 65 n && Nat.leb n 90.

Definition is_lower (c : ascii) : bool :=
  let n := nat_of_ascii c in Nat.leb 97 n && Nat.leb n 122.

(** The capital letters from 192 to 222, all but the multiplication sign,
    and the small letters 32 further on, all but the division sign. *)
Definition is_upper_latin1 (c : ascii) : bool :=
  let n := nat_of_ascii c in
  Nat.leb 192 n && Nat.leb n 222 && negb (Nat.eqb n 215).

Definition is_lower_latin1 (c : ascii) : bool :=
  let n := nat_of_ascii c in
  Nat.leb 224 n && Nat.leb n 254 && negb (Nat.eqb n 247).

(** [c.lower()]: a capital letter becomes the small one. *)
Definition lower_char (c : ascii) : ascii :=
  if is_upper c || is_upper_latin1 c
  then ascii_of_nat (nat_of_ascii c + 32)
  else c.

(** [c.upper()]: a small letter becomes the capital one, and the sharp s
    becomes [SS].  The capital forms of the micro sign (181) and of the y
    with diaeresis (255) are code points from 256 on; the model leaves
    these two characters as they are. *)
Definition upper_char (c : ascii) : string :=
  if is_lower c || is_lower_latin1 c
  then String (ascii_of_nat (nat_of_ascii c - 32)) EmptyString
  else if Nat.eqb (nat_of_ascii c) 223
  then "SS"
  else String c EmptyString.

(** [s.lower()] *)
Fixpoint lower (s : string) : string :=
  match s with
  | EmptyString => EmptyString
  | String c s' => String (lower_char c) (lower s')
  end.

(** [s.upper()] *)
Fixpoint upper (s : string) : string :=
  match s with
  | EmptyString => EmptyString
  | String c s' => upper_char c +:+ upper s'
  end.

(** [c.isspace()]: tab, line feed, vertical tab, form feed, carriage
    return, the four separators 0x1c..0x1f, the space, the next-line
    control (133) and the no-break space (160). *)
Definition isspace (c : ascii) : bool :=
  let n := nat_of_ascii c in
  (Nat.leb 9 n && Nat.leb n 13) || (Nat.leb 28 n && Nat.leb n 31)
  || Nat.eqb n 32 || Nat.eqb n 133 || Nat.eqb n 160.

(** [s.lstrip()] *)
Fixpoint lstrip (s : string) : string :=
  match s with
  | EmptyString => EmptyString
  | String c s' => if isspace c then lstrip s' else s
  end.

(** [s.rstrip()] *)
Fixpoint rstrip (s : string) : string :=
  match s with
  | EmptyString => EmptyString
  | String c s' =>
      match rstrip s' with
      | EmptyString => if isspace c then EmptyString else String c EmptyString
      | r => String c r
      end
  end.

(** [s.strip()] *)
Definition strip (s : string) : string := rstrip (lstrip s).

(** [s.startswith(p)] *)
Fixpoint startswith (p s : string) : bool :=
  match p, s with
  | EmptyString, _ => true
  | String a p', String b s' => Ascii.eqb a b && startswith p' s'
  | String _ _, EmptyString => false
  end.

(** [sub in s] *)
Fixpoint contains (sub s : string) : bool :=
  startswith sub s ||
  match s with
  | EmptyString => false
  | String _ s' => contains sub s'
  end.

(** The scan behind [s.split(sep)] for a non-empty [sep], left to right:
    [skip] counts the characters of a separator just matched that are
    still to be passed over, [cur] is the segment being collected. *)
Fixpoint split_go (sep : string) (skip : nat) (cur s : string) : list string :=
  match s with
  | EmptyString => [cur]
  | String c s' =>
      match skip with
      | S k => split_go sep k cur s'
      | O =>
          if startswith sep s
          then cur :: split_go sep (String.length sep - 1) EmptyString s'
          else split_go sep 0 (cur +:+ String c EmptyString) s'
      end
  end.

(** [s.split(sep)]; [None] is the [ValueError] of an empty separator. *)
Definition split (s sep : string) : option (list string) :=
  match sep with
  | EmptyString => None
  | String _ _ => Some (split_go sep 0 EmptyString s)
  end.

(** The scan behind [s.split()]: runs of whitespace separate the tokens
    and no empty token is produced. *)
Fixpoint split_ws_go (cur s : string) : list string :=
  match s with
  | EmptyString =>
      match cur with EmptyString => [] | _ => [cur] end
  | String c s' =>
      if isspace c
      then match cur with
           | EmptyString => split_ws_go EmptyString s'
           | _ => cur :: split_ws_go EmptyString s'
           end
      else split_ws_go (cur +:+ String c EmptyString) s'
  end.

(** [s.split()] *)
Definition split_ws (s : string) : list string := split_ws_go EmptyString s.

(** [sep.join(parts)] *)
Fixpoint join (sep : string) (parts : list string) : string :=
  match parts with
  | [] => EmptyString
  | [p] => p
  | p :: rest => p +:+ sep +:+ join sep rest
  end.

(** [s.endswith(p)] *)
Fixpoint endswith (p s : string) : bool :=
  String.eqb p s ||
  match s with
  | EmptyString => false
  | String _ s' => endswith p s'
  end.

End PyStr.

(* ------------------------------------------------------------------ *)
(** ** Values, dictionaries, exceptions                                 *)
(* ------------------------------------------------------------------ *)

(** The values the client puts into a parameter mapping or a chat message. *)
Inductive pyval : Type :=
| VStr (s : string)
| VFloat (x : float).

(** A [dict] with [str] keys, in insertion order. *)
Definition pydict (V : Type) : Type := list (string * V).

Module PyDict.

(** [d[k] = v]: an existing key keeps its place, a new one goes last. *)
Fixpoint set {V : Type} (k : string) (v : V) (d : pydict V) : pydict V :=
  match d with
  | [] => [(k, v)]
  | (k', v') :: d' =>
      if String.eqb k k' then (k, v) :: d' else (k', v') :: set k v d'
  end.

(** [d.get(k)] *)
Fixpoint get {V : Type} (k : string) (d : pydict V) : option V :=
  match d with
  | [] => None
  | (k', v') :: d' => if String.eqb k k' then Some v' else get k d'
  end.

(** [k in d] *)
Definition mem {V : Type} (k : string) (d : pydict V) : bool :=
  match get k d with Some _ => true | None => false end.

(** [list(d.keys())] *)
Definition keys {V : Type} (d : pydict V) : list string := map fst d.

End PyDict.

(** The exception classes that matter to the two handlers of the client:
    [except ValueError] and [except Exception].  [Exception_] stands for
    any other subclass of [Exception]; [KeyboardInterrupt] and [SystemExit]
    derive from [BaseException] only. *)
Inductive exn_class : Type :=
| ValueError
| IndexError
| AttributeError
| EOFError
| Exception_
| KeyboardInterrupt
| SystemExit.

(** A raised exception: its class and [str(e)]. *)
Record exn : Type := Exn { exn_cls : exn_class; exn_str : string }.

Definition isinstance_Exception (e : exn) : bool :=
  match exn_cls e with
  | KeyboardInterrupt | SystemExit => false
  | _ => true
  end.

Definition isinstance_ValueError (e : exn) : bool :=
  match exn_cls e with
  | ValueError => true
  | _ => false
  end.

(** What a call into a collaborator does: it returns or it raises. *)
Inductive outcome (A : Type) : Type :=
| Returns (a : A)
| Raises (e : exn).
Arguments Returns {A} a.
Arguments Raises {A} e.

(** Python's [str(x)] protocol. *)
Class Str (A : Type) : Type := str : A -> string.

#[export] Instance Str_string : Str string := fun s => s.

(* ------------------------------------------------------------------ *)
(** ** The collaborators and the process state                          *)
(* ------------------------------------------------------------------ *)

(** A tool descriptor of the provider; the client reads its [name] only. *)
Record Tool : Type := { tool_name : string; tool_schema : string }.

(** [result.content] of a tool call: a list of content items, or one value
    that is not a list. *)
Inductive content (Obj : Type) : Type :=
| ContentList (items : list Obj)
| ContentOther (v : Obj).
Arguments ContentList {Obj} items.
Arguments ContentOther {Obj} v.

Record CallToolResult (Obj : Type) : Type := { result_content : content Obj }.

(** The reply of the chat model: [response["message"]["content"]]. *)
Record chat_message : Type := { message_content : string }.
Record chat_response : Type := { message : chat_message }.

(** The contexts entered on [self.exit_stack]. *)
Inductive resource : Type :=
| StdioTransport (command : string) (args : list string)
| Session.

(** One argument of a [print] call. *)
Inductive printed : Type :=
| PStr (s : string)
| PStrList (l : list string).

(** What the process does to the outside world, in order. *)
Inductive event : Type :=
| EvPrint (args : list printed)
| EvInput (prompt : string)
| EvEnter (r : resource)
| EvRelease (r : resource)
| EvInitialize
| EvListTools
| EvCallTool (name : string) (params : pydict pyval)
| EvChat (model : string) (messages : list (pydict pyval)).

(** One interaction at the console: a line typed, or an exception raised
    inside [input] (a [KeyboardInterrupt], say). *)
Inductive stdin_item : Type :=
| Line (s : string)
| Signal (e : exn).

(** The attributes of the [MCPClient] object.  [available_tools] does not
    exist before [connect_to_server] assigns it.  The transport pair kept in
    [self.stdio] and [self.write] is read nowhere but at the creation of the
    session, which [Session] stands for. *)
Record MCPClient : Type := {
  session : option unit;
  exit_stack : list resource;
  available_tools : option (pydict Tool)
}.

(** [MCPClient.__init__] *)
Definition MCPClient_init : MCPClient :=
  {| session := None; exit_stack := []; available_tools := None |}.

Record world : Type := {
  client : MCPClient;
  stdin : list stdin_item;
  events : list event
}.

(** What leaving a context does: it returns, asking or not that the
    exception in flight be swallowed, or it raises. *)
Inductive exit_outcome : Type :=
| ExitReturns (suppress : bool)
| ExitRaises (e : exn).

(** The answers of the outside world.  Every oracle sees the events so
    far, so a collaborator may answer differently from call to call. *)
Record Env (Obj : Type) : Type := {
  (** [float(s)]; [None] is its [ValueError] *)
  py_float : string -> option float;
  (** entering [stdio_client(server_params)]: the subprocess is spawned *)
  stdio_client_enter : list event -> string -> list string -> option exn;
  (** entering [ClientSession(self.stdio, self.write)] *)
  client_session_enter : list event -> option exn;
  (** leaving a context of the exit stack, given the exception in flight *)
  context_exit : list event -> resource -> option exn -> exit_outcome;
  (** [session.initialize()] *)
  session_initialize : list event -> option exn;
  (** [session.list_tools()], the [tools] of the response *)
  session_list_tools : list event -> outcome (list Tool);
  (** [session.call_tool(name, params)] *)
  session_call_tool :
    list event -> string -> pydict pyval -> outcome (CallToolResult Obj);
  (** [ollama.chat(model=..., messages=...)] *)
  ollama_chat :
    list event -> string -> list (pydict pyval) -> outcome chat_response
}.

(* ------------------------------------------------------------------ *)
(** ** The state and exception monad                                    *)
(* ------------------------------------------------------------------ *)

(** [OutOfFuel] marks a run cut short while the chat loop is still going;
    no handler and no [finally] block sees it. *)
Inductive result (A : Type) : Type :=
| Ok (a : A)
| Raise (e : exn)
| OutOfFuel.
Arguments Ok {A} a.
Arguments Raise {A} e.
Arguments OutOfFuel {A}.

Definition M (A : Type) : Type := world -> result A * world.

Definition ret {A : Type} (a : A) : M A := fun w => (Ok a, w).

Definition bind {A B : Type} (c : M A) (k : A -> M B) : M B :=
  fun w =>
    match c w with
    | (Ok a, w') => k a w'
    | (Raise e, w') => (Raise e, w')
    | (OutOfFuel, w') => (OutOfFuel, w')
    end.

Notation "x <- c ;; k" := (bind c (fun x => k))
  (at level 61, c at next level, right associativity).
Notation "c ;; k" := (bind c (fun _ => k))
  (at level 61, right associativity).

Definition raise {A : Type} (e : exn) : M A := fun w => (Raise e, w).

Definition out_of_fuel {A : Type} : M A := fun w => (OutOfFuel, w).

(** [try: body  except C as e: handler e], [catches] deciding [isinstance(e, C)]. *)
Definition try_except {A : Type} (catches : exn -> bool)
    (body : M A) (handler : exn -> M A) : M A :=
  fun w =>
    match body w with
    | (Raise e, w') => if catches e then handler e w' else (Raise e, w')
    | r => r
    end.

(** [try: body  finally: fin] *)
Definition try_finally {A : Type} (body : M A) (fin : M unit) : M A :=
  fun w =>
    match body w with
    | (OutOfFuel, w') => (OutOfFuel, w')
    | (r, w') =>
        match fin w' with
        | (Ok _, w'') => (r, w'')
        | (Raise e, w'') => (Raise e, w'')
        | (OutOfFuel, w'') => (OutOfFuel, w'')
        end
    end.

Definition emit (ev : event) : M unit :=
  fun w => (Ok tt, {| client := client w; stdin := stdin w;
                      events := events w ++ [ev] |}).

Definition get_events : M (list event) := fun w => (Ok (events w), w).

Definition get_self : M MCPClient := fun w => (Ok (client w), w).

Definition set_self (c : MCPClient) : M unit :=
  fun w => (Ok tt, {| client := c; stdin := stdin w; events := events w |}).

(** Lifting the answer of a collaborator. *)
Definition of_outcome {A : Type} (o : outcome A) : M A :=
  match o with
  | Returns a => ret a
  | Raises e => raise e
  end.

Definition of_failure (o : option exn) : M unit :=
  match o with
  | None => ret tt
  | Some e => raise e
  end.

(** [print(a, b, ...)] *)
Definition print (args : list printed) : M unit := emit (EvPrint args).

(** [input(prompt)]: at the end of the input it raises [EOFError]. *)
Definition input (prompt : string) : M string :=
  emit (EvInput prompt) ;;
  fun w =>
    match stdin w with
    | [] => (Raise (Exn EOFError "EOF when reading a line"), w)
    | item :: rest =>
        let w' := {| client := client w; stdin := rest; events := events w |} in
        match item with
        | Line s => (Ok s, w')
        | Signal e => (Raise e, w')
        end
    end.

(** [parts[-1]] *)
Definition index_last {A : Type} (parts : list A) : M A :=
  match rev parts with
  | [] => raise (Exn IndexError "list index out of range")
  | x :: _ => ret x
  end.

(** [s.split(sep)] with its [ValueError]. *)
Definition str_split (s sep : string) : M (list string) :=
  match PyStr.split s sep with
  | Some parts => ret parts
  | None => raise (Exn ValueError "empty separator")
  end.

(* ------------------------------------------------------------------ *)
(** ** The client                                                       *)
(* ------------------------------------------------------------------ *)

Section Client.

Context {Obj : Type} `{Str Obj} (env : Env Obj).

(** [float(s)] on a [str]; the handler that catches its [ValueError]
    drops the message. *)
Definition float_of_str (s : string) : M float :=
  match py_float env s with
  | Some x => ret x
  | None =>
      raise (Exn ValueError
               ("could not convert string to float: '" +:+ s +:+ "'"))
  end.

(** [lat, lon = map(float, tokens)].  [map] is lazy: a token is converted
    when the unpacking asks for it, and after the second value the
    unpacking asks once more, to see that nothing is left. *)
Definition unpack_lat_lon (tokens : list string) : M (float * float) :=
  match tokens with
  | [] =>
      raise (Exn ValueError "not enough values to unpack (expected 2, got 0)")
  | a :: rest =>
      lat <- float_of_str a ;;
      match rest with
      | [] =>
          raise (Exn ValueError
                   "not enough values to unpack (expected 2, got 1)")
      | b :: rest' =>
          lon <- float_of_str b ;;
          match rest' with
          | [] => ret (lat, lon)
          | c :: _ =>
              float_of_str c ;;
              raise (Exn ValueError "too many values to unpack (expected 2)")
          end
      end
  end.

(** [await self.exit_stack.enter_async_context(cm)]: the context is
    pushed only once it has been entered. *)
Definition enter_async_context (r : resource)
    (enter : list event -> option exn) : M unit :=
  evs <- get_events ;;
  of_failure (enter evs) ;;
  self <- get_self ;;
  set_self {| session := session self;
              exit_stack := r :: exit_stack self;
              available_tools := available_tools self |} ;;
  emit (EvEnter r).

(** [self.available_tools] *)
Definition get_available_tools : M (pydict Tool) :=
  self <- get_self ;;
  match available_tools self with
  | Some tools => ret tools
  | None =>
      raise (Exn AttributeError
               "'MCPClient' object has no attribute 'available_tools'")
  end.

(** [await self.session.call_tool(tool_name, params)] *)
Definition call_tool (tool_name : string) (params : pydict pyval)
    : M (CallToolResult Obj) :=
  self <- get_self ;;
  match session self with
  | None =>
      raise (Exn AttributeError
               "'NoneType' object has no attribute 'call_tool'")
  | Some _ =>
      evs <- get_events ;;
      emit (EvCallTool tool_name params) ;;
      of_outcome (session_call_tool env evs tool_name params)
  end.

(** [ollama.chat(model=model, messages=messages)] *)
Definition chat (model : string) (messages : list (pydict pyval))
    : M chat_response :=
  evs <- get_events ;;
  emit (EvChat model messages) ;;
  of_outcome (ollama_chat env evs model messages).

(** [{tool.name: tool for tool in tools}] *)
Definition tools_by_name (tools : list Tool) : pydict Tool :=
  fold_left (fun d tool => PyDict.set (tool_name tool) tool d) tools [].

Definition connect_to_server (server_script_path : string) : M unit :=
  let is_python := PyStr.endswith ".py" server_script_path in
  if negb is_python
  then raise (Exn ValueError "Server script must be a Python (.py) file")
  else
    let command := "python" in
    enter_async_context (StdioTransport command [server_script_path])
      (fun evs => stdio_client_enter env evs command [server_script_path]) ;;
    enter_async_context Session (client_session_enter env) ;;
    self <- get_self ;;
    set_self {| session := Some tt;
                exit_stack := exit_stack self;
                available_tools := available_tools self |} ;;
    evs <- get_events ;;
    emit EvInitialize ;;
    of_failure (session_initialize env evs) ;;
    evs' <- get_events ;;
    emit EvListTools ;;
    tools <- of_outcome (session_list_tools env evs') ;;
    self' <- get_self ;;
    let registry := tools_by_name tools in
    set_self {| session := session self';
                exit_stack := exit_stack self';
                available_tools := Some registry |} ;;
    print [PStr (PyStr.LF +:+ "Connected to server with tools:");
           PStrList (PyDict.keys registry)].

Definition call_mcp_tool (tool_name : string) (params : pydict pyval)
    : M string :=
  tools <- get_available_tools ;;
  if PyDict.mem tool_name tools
  then
    try_except isinstance_Exception
      (result <- call_tool tool_name params ;;
       match result_content result with
       | ContentList items => ret (PyStr.join PyStr.LF (map str items))
       | ContentOther v => ret (str v)
       end)
      (fun e =>
         ret ("Error calling tool " +:+ tool_name +:+ ": " +:+ exn_str e))
  else ret ("Tool " +:+ tool_name +:+ " not available.").

(** [query.split("weather alert in")[-1].strip().upper()] *)
Definition alert_state (query : string) : M string :=
  parts <- str_split query "weather alert in" ;;
  part <- index_last parts ;;
  ret (PyStr.upper (PyStr.strip part)).

(** [query.split("weather forecast for")[-1].strip()] *)
Definition forecast_location (query : string) : M string :=
  parts <- str_split query "weather forecast for" ;;
  part <- index_last parts ;;
  ret (PyStr.strip part).

Definition process_query (query : string) : M string :=
  let messages := [[("role", VStr "user"); ("content", VStr query)]] in
  if PyStr.contains "weather alert in" (PyStr.lower query)
  then
    state <- alert_state query ;;
    call_mcp_tool "get_alerts" [("state", VStr state)]
  else if PyStr.contains "weather forecast for" (PyStr.lower query)
  then
    location <- forecast_location query ;;
    try_except isinstance_ValueError
      (lat_lon <- unpack_lat_lon (PyStr.split_ws location) ;;
       call_mcp_tool "get_forecast"
         [("latitude", VFloat (fst lat_lon));
          ("longitude", VFloat (snd lat_lon))])
      (fun _ =>
         ret "Invalid location format. Please provide latitude and longitude.")
  else
    model_response <- chat "llama3.2:latest" messages ;;
    ret (message_content (message model_response)).

(** What an iteration of [while True] does next. *)
Inductive loop_ctl : Type := Continue | Break.

(** The [try] block of the loop body. *)
Definition chat_loop_try : M loop_ctl :=
  line <- input (PyStr.LF +:+ "Query: ") ;;
  let query := PyStr.strip line in
  if String.eqb (PyStr.lower query) "quit"
  then ret Break
  else
    response <- process_query query ;;
    print [PStr (PyStr.LF +:+ response)] ;;
    ret Continue.

(** Its handler, [except Exception as e]. *)
Definition chat_loop_except (e : exn) : M loop_ctl :=
  print [PStr (PyStr.LF +:+ "Error: " +:+ exn_str e)] ;;
  ret Continue.

(** The body of [while True]. *)
Definition chat_loop_body : M loop_ctl :=
  try_except isinstance_Exception chat_loop_try chat_loop_except.

(** [while True], cut after [fuel] iterations. *)
Fixpoint while_true (fuel : nat) : M unit :=
  match fuel with
  | O => out_of_fuel
  | S fuel' =>
      ctl <- chat_loop_body ;;
      match ctl with
      | Break => ret tt
      | Continue => while_true fuel'
      end
  end.

Definition chat_loop (fuel : nat) : M unit :=
  print [PStr (PyStr.LF +:+ "MCP Client Started!")] ;;
  print [PStr "Type your queries or 'quit' to exit."] ;;
  while_true fuel.

(** [AsyncExitStack.aclose]: the contexts are left last in, first out, each
    of them whatever the others did.  An exception raised on the way out
    is kept in flight and handed to the contexts still to be left, one of
    which may swallow it; what is still in flight at the end is raised. *)
Fixpoint release_all (stack : list resource) (in_flight : option exn)
    : M unit :=
  match stack with
  | [] =>
      match in_flight with
      | None => ret tt
      | Some e => raise e
      end
  | r :: rest =>
      evs <- get_events ;;
      emit (EvRelease r) ;;
      match context_exit env evs r in_flight with
      | ExitReturns suppress =>
          release_all rest (if suppress then None else in_flight)
      | ExitRaises e => release_all rest (Some e)
      end
  end.

Definition cleanup : M unit :=
  self <- get_self ;;
  set_self {| session := session self;
              exit_stack := [];
              available_tools := available_tools self |} ;;
  release_all (exit_stack self) None.

(** [main], [sys.argv] given as [argv]. *)
Definition main (fuel : nat) (argv : list string) : M unit :=
  if Nat.ltb (length argv) 2
  then
    print [PStr "Usage: python client.py <path_to_server_script>"] ;;
    raise (Exn SystemExit "1")
  else
    set_self MCPClient_init ;;
    try_finally
      (match nth_error argv 1 with
       | Some path => connect_to_server path
       | None => raise (Exn IndexError "list index out of range")
       end ;;
       chat_loop fuel)
      cleanup.

End Client.

(* ------------------------------------------------------------------ *)
(** ** Vocabulary of the specification                                  *)
(* ------------------------------------------------------------------ *)

(** The two trigger phrases of the router. *)
Definition alert_trigger : string := "weather alert in".
Definition forecast_trigger : string := "weather forecast for".

(** A phrase occurs in a query in any letter case. *)
Definition contains_ignoring_case (phrase query : string) : Prop :=
  exists pre mid suf,
    query = pre +:+ mid +:+ suf /\ PyStr.lower mid = PyStr.lower phrase.

(** [pre] is where the last occurrence of [phrase] in [query] starts and
    [suf] is the text after it. *)
Definition last_occurrence (phrase query pre suf : string) : Prop :=
  query = pre +:+ phrase +:+ suf /\
  forall pre' suf',
    query = pre' +:+ phrase +:+ suf' -> String.length pre' <= String.length pre.

(** The value of [query.split(sep)[-1]]. *)
Definition after_split (query sep : string) : string :=
  last (PyStr.split_go sep 0 EmptyString query) EmptyString.

(** The line typed ends the session. *)
Definition is_quit (line : string) : bool :=
  String.eqb (PyStr.lower (PyStr.strip line)) "quit".

(** The world after more events. *)
Definition with_events (w : world) (evs : list event) : world :=
  {| client := client w; stdin := stdin w; events := events w ++ evs |}.

(** The contexts entered and the contexts released, each in order. *)
Fixpoint entered (evs : list event) : list resource :=
  match evs with
  | [] => []
  | EvEnter r :: evs' => r :: entered evs'
  | _ :: evs' => entered evs'
  end.

Fixpoint released (evs : list event) : list resource :=
  match evs with
  | [] => []
  | EvRelease r :: evs' => r :: released evs'
  | _ :: evs' => released evs'
  end.

(** A character occurs in a string. *)
Fixpoint char_in (c : ascii) (s : string) : bool :=
  match s with
  | EmptyString => false
  | String c' s' => Ascii.eqb c c' || char_in c s'
  end.

(** The first character of a phrase occurs nowhere else in it, so two
    occurrences of the phrase in a text never overlap. *)
Definition first_char_unique (phrase : string) : bool :=
  match phrase with
  | EmptyString => false
  | String c rest => negb (char_in c rest)
  end.

(** Events that neither enter nor release a context. *)
Definition quiet (ev : event) : bool :=
  match ev with
  | EvEnter _ | EvRelease _ => false
  | _ => true
  end.

(** From [w] to [w']: the client object is as it was, console input has been
    consumed from the front only, and events have been added, none of which
    touches the exit stack. *)
Definition evolves (w w' : world) : Prop :=
  client w' = client w /\
  (exists used, stdin w = used ++ stdin w') /\
  (exists evs, events w' = events w ++ evs /\ forallb quiet evs = true).

(** A computation that only ever makes such steps. *)
Definition steady {A : Type} (c : M A) : Prop :=
  forall w r w', c w = (r, w') -> evolves w w'.

Section Routes.

Context {Obj : Type} `{Str Obj} (env : Env Obj).

(** The three branches of [process_query], each from the point where its
    argument has been extracted. *)
Definition alerts_route (state : string) : M string :=
  call_mcp_tool env "get_alerts" [("state", VStr state)].

Definition forecast_route (location : string) : M string :=
  try_except isinstance_ValueError
    (lat_lon <- unpack_lat_lon env (PyStr.split_ws location) ;;
     call_mcp_tool env "get_forecast"
       [("latitude", VFloat (fst lat_lon));
        ("longitude", VFloat (snd lat_lon))])
    (fun _ =>
       ret "Invalid location format. Please provide latitude and longitude.").

Definition chat_route (query : string) : M string :=
  model_response <-
    chat env "llama3.2:latest" [[("role", VStr "user"); ("content", VStr query)]] ;;
  ret (message_content (message model_response)).

End Routes.

(* ------------------------------------------------------------------ *)
(** ** A sample environment                                             *)
(* ------------------------------------------------------------------ *)

Module Sample.

Local Open Scope float_scope.

Definition digit (c : ascii) : option float :=
  let n := nat_of_ascii c in
  if Nat.leb 48 n && Nat.leb n 57
  then Some (nth (n - 48) [0; 1; 2; 3; 4; 5; 6; 7; 8; 9] 0)
  else None.

Fixpoint decimal_go (s : string) (seen_dot : bool) (digits : nat)
    (mant scale : float) : option float :=
  match s with
  | EmptyString => if Nat.eqb digits 0 then None else Some (mant / scale)
  | String c s' =>
      if Ascii.eqb c "."
      then if seen_dot then None else decimal_go s' true digits mant scale
      else
        match digit c with
        | Some d =>
            decimal_go s' seen_dot (S digits) (mant * 10 + d)
              (if seen_dot then scale * 10 else scale)
        | None => None
        end
  end.

(** A parser for plain decimal literals (sign, digits, at most one
    point), exact on short ones.  [float] accepts more: exponents,
    [inf], [nan], underscores, blanks around the literal. *)
Definition decimal_float (s : string) : option float :=
  match s with
  | String "-" s' => option_map PrimFloat.opp (decimal_go s' false 0 0 1)
  | String "+" s' => decimal_go s' false 0 0 1
  | _ => decimal_go s false 0 0 1
  end.

Definition tool (name : string) : Tool :=
  {| tool_name := name; tool_schema := "{}" |}.

Definition reply (text : string) : chat_response :=
  {| message := {| message_content := text |} |}.

(** A provider with three tools, the third of which is broken, and a chat
    model that is down for the query [boom]. *)
Definition env : Env string := {|
  py_float := decimal_float;
  stdio_client_enter := fun _ _ args =>
    match args with
    | ["missing.py"] => Some (Exn Exception_ "No such file or directory")
    | _ => None
    end;
  client_session_enter := fun _ => None;
  context_exit := fun _ _ _ => ExitReturns false;
  session_initialize := fun _ => None;
  session_list_tools := fun _ =>
    Returns [tool "get_alerts"; tool "get_forecast"; tool "get_radar"];
  session_call_tool := fun _ name _ =>
    if String.eqb name "get_alerts"
    then Returns {| result_content :=
                      ContentList ["Event: Flood Watch"; "Area: Sacramento"] |}
    else if String.eqb name "get_forecast"
    then Returns {| result_content := ContentOther "Sunny, 75F" |}
    else Raises (Exn Exception_ "Connection closed");
  ollama_chat := fun _ _ messages =>
    match messages with
    | [[_; (_, VStr "boom")]] =>
        Raises (Exn Exception_ "Failed to connect to Ollama")
    | _ => Returns (reply "Hello!")
    end
|}.

(** The client as [connect_to_server] leaves it. *)
Definition connected : MCPClient := {|
  session := Some tt;
  exit_stack := [Session; StdioTransport "python" ["weather.py"]];
  available_tools :=
    Some (tools_by_name [tool "get_alerts"; tool "get_forecast"; tool "get_radar"])
|}.

Definition at_console (items : list stdin_item) : world :=
  {| client := connected; stdin := items; events := [] |}.

Definition fresh (items : list stdin_item) : world :=
  {| client := MCPClient_init; stdin := items; events := [] |}.

(** The same collaborators, but a session that fails on the way out. *)
Definition env_failing_exit : Env string := {|
  py_float := py_float env;
  stdio_client_enter := stdio_client_enter env;
  client_session_enter := client_session_enter env;
  context_exit := fun _ r _ =>
    match r with
    | Session => ExitRaises (Exn Exception_ "session did not close")
    | StdioTransport _ _ => ExitReturns false
    end;
  session_initialize := session_initialize env;
  session_list_tools := session_list_tools env;
  session_call_tool := session_call_tool env;
  ollama_chat := ollama_chat env
|}.

End Sample.

(* ------------------------------------------------------------------ *)
(** ** Vocabulary of the further properties                             *)
(* ------------------------------------------------------------------ *)

(** A text of ASCII characters only. *)
Fixpoint is_ascii (s : string) : bool :=
  match s with
  | EmptyString => true
  | String c s' => Nat.ltb (nat_of_ascii c) 128 && is_ascii s'
  end.

(** A string of whitespace only. *)
Fixpoint all_space (s : string) : bool :=
  match s with
  | EmptyString => true
  | String c s' => PyStr.isspace c && all_space s'
  end.

(** A string with an ASCII small letter in it. *)
Fixpoint has_lower (s : string) : bool :=
  match s with
  | EmptyString => false
  | String c s' => PyStr.is_lower c || has_lower s'
  end.

(** The first, and the last, character of a string is whitespace. *)
Definition first_is_space (s : string) : bool :=
  match s with
  | EmptyString => false
  | String c _ => PyStr.isspace c
  end.

Fixpoint last_is_space (s : string) : bool :=
  match s with
  | EmptyString => false
  | String c EmptyString => PyStr.isspace c
  | String _ s' => last_is_space s'
  end.

(** The last tool of a list that carries a given name. *)
Fixpoint last_named (name : string) (tools : list Tool) : option Tool :=
  match tools with
  | [] => None
  | tool :: rest =>
      match last_named name rest with
      | Some found => Some found
      | None => if String.eqb name (tool_name tool) then Some tool else None
      end
  end.

(** Collaborators whose failures are all of class [Exception]: neither the
    provider nor the chat model is ever cut short by an interrupt. *)
Definition polite {Obj : Type} (env : Env Obj) : Prop :=
  (forall evs name params e,
      session_call_tool env evs name params = Raises e ->
      isinstance_Exception e = true) /\
  (forall evs model messages e,
      ollama_chat env evs model messages = Raises e ->
      isinstance_Exception e = true).

(** A computation that reads no input, leaves the client object alone, and
    ends by returning or by raising an exception of class [Exception]. *)
Definition gentle {A : Type} (c : M A) : Prop :=
  forall w r w',
    c w = (r, w') ->
    stdin w' = stdin w /\ client w' = client w /\
    match r with
    | Ok _ => True
    | Raise e => isinstance_Exception e = true
    | OutOfFuel => False
    end.

(** What [n] turns at the end of the input leave behind: the prompt and the
    report of the [EOFError], [n] times over. *)
Fixpoint eof_turns (n : nat) : list event :=
  match n with
  | O => []
  | S n' =>
      EvInput (PyStr.LF +:+ "Query: ")
      :: EvPrint [PStr (PyStr.LF +:+ "Error: EOF when reading a line")]
      :: eof_turns n'
  end.

(** The events of a start-up that went through. *)
Definition startup_events (path : string) (tools : list Tool) : list event :=
  [EvEnter (StdioTransport "python" [path]);
   EvEnter Session;
   EvInitialize;
   EvListTools;
   EvPrint [PStr (PyStr.LF +:+ "Connected to server with tools:");
            PStrList (PyDict.keys (tools_by_name tools))]].

(* ------------------------------------------------------------------ *)
(** ** Facts about the text operations                                  *)
(* ------------------------------------------------------------------ *)

Unset Implicit Arguments.

(** The text operations on a few inputs. *)
Example lower_ex :
  PyStr.lower "Weather Alert In CA" = "weather alert in ca".
Proof. reflexivity. Qed.

Example split_ex1 : PyStr.split "a, b,c," "," = Some ["a"; " b"; "c"; ""].
Proof. reflexivity. Qed.

Example split_ex2 :
  PyStr.split "xweather alert in CA weather alert in  ny " "weather alert in"
  = Some ["x"; " CA "; "  ny "].
Proof. reflexivity. Qed.

(** A separator that overlaps itself is matched from the left. *)
Example split_ex3 : PyStr.split "aaa" "aa" = Some [""; "a"].
Proof. reflexivity. Qed.

Example strip_ex : PyStr.strip "  a b  " = "a b".
Proof. reflexivity. Qed.

Example ws_ex : PyStr.split_ws "  38.5   -120.2 " = ["38.5"; "-120.2"].
Proof. reflexivity. Qed.

Example join_ex : PyStr.join PyStr.LF ["a"; "b"] = "a" +:+ PyStr.LF +:+ "b".
Proof. reflexivity. Qed.

Example ends_ex :
  PyStr.endswith ".py" "weather.py" = true /\ PyStr.endswith ".py" "py" = false.
Proof. split; reflexivity. Qed.

Module PyStrFacts.
Import PyStr.

Lemma append_assoc (a b c : string) : (a +:+ b) +:+ c = a +:+ b +:+ c.
Proof. induction a as [|x a IH]; simpl; [reflexivity | now rewrite IH]. Qed.

Lemma append_empty_r (a : string) : a +:+ EmptyString = a.
Proof. induction a as [|x a IH]; simpl; [reflexivity | now rewrite IH]. Qed.

Lemma length_append (a b : string) :
  String.length (a +:+ b) = String.length a + String.length b.
Proof. induction a as [|x a IH]; simpl; [reflexivity | now rewrite IH]. Qed.

Lemma append_inv_head (a x y : string) : a +:+ x = a +:+ y -> x = y.
Proof. induction a as [|c a IH]; simpl; intros E; [assumption | injection E; auto]. Qed.

(** Two ways of cutting one text: one cut is inside the other's prefix. *)
Lemma append_eq_append (a x b y : string) :
  a +:+ x = b +:+ y ->
  (exists d, b = a +:+ d /\ x = d +:+ y) \/
  (exists d, a = b +:+ d /\ y = d +:+ x).
Proof.
  revert b; induction a as [|c a IH]; intros b E; simpl in *.
  - left; exists b; auto.
  - destruct b as [|c' b]; simpl in *.
    + right; exists (String c a); auto.
    + injection E as -> E.
      destruct (IH _ E) as [[d [-> ->]] | [d [-> ->]]].
      * left; exists d; auto.
      * right; exists d; auto.
Qed.

Lemma startswith_app (p r : string) : startswith p (p +:+ r) = true.
Proof.
  induction p as [|c p IH]; simpl; [reflexivity|].
  now rewrite Ascii.eqb_refl, IH.
Qed.

Lemma startswith_inv (p s : string) :
  startswith p s = true -> exists r, s = p +:+ r.
Proof.
  revert s; induction p as [|c p IH]; intros s E; simpl in *.
  - exists s; reflexivity.
  - destruct s as [|c' s]; [discriminate|].
    apply andb_true_iff in E as [Ec Ep].
    apply Ascii.eqb_eq in Ec as ->.
    destruct (IH _ Ep) as [r ->]. exists r; reflexivity.
Qed.

Lemma contains_intro (pre sub suf : string) :
  contains sub (pre +:+ sub +:+ suf) = true.
Proof.
  induction pre as [|c pre IH]; simpl.
  - destruct (sub +:+ suf) eqn:E; simpl;
      rewrite <- E, startswith_app; reflexivity.
  - rewrite IH. apply orb_true_r.
Qed.

Lemma contains_inv (sub s : string) :
  contains sub s = true -> exists pre suf, s = pre +:+ sub +:+ suf.
Proof.
  induction s as [|c s IH]; simpl; intros E.
  - rewrite orb_false_r in E. destruct (startswith_inv _ _ E) as [r ->].
    exists EmptyString, r; reflexivity.
  - apply orb_true_iff in E as [E | E].
    + destruct (startswith_inv _ _ E) as [r ->].
      exists EmptyString, r; reflexivity.
    + destruct (IH E) as [pre [suf ->]].
      exists (String c pre), suf; reflexivity.
Qed.

Lemma contains_false_startswith (sub s : string) :
  contains sub s = false -> startswith sub s = false.
Proof.
  destruct s; simpl; intros E; apply orb_false_iff in E as [E _]; exact E.
Qed.

Lemma lower_app (a b : string) : lower (a +:+ b) = lower a +:+ lower b.
Proof. induction a as [|c a IH]; simpl; [reflexivity | now rewrite IH]. Qed.

Lemma lower_app_inv (q a b : string) :
  lower q = a +:+ b ->
  exists q1 q2, q = q1 +:+ q2 /\ lower q1 = a /\ lower q2 = b.
Proof.
  revert q; induction a as [|c a IH]; intros q E; simpl in *.
  - exists EmptyString, q; auto.
  - destruct q as [|c' q]; simpl in E; [discriminate|].
    injection E as Ec E.
    destruct (IH _ E) as [q1 [q2 [-> [E1 E2]]]].
    exists (String c' q1), q2; simpl. rewrite Ec, E1. auto.
Qed.

(** The test of the router, [phrase in query.lower()], is containment in
    any letter case. *)
Lemma contains_lower_iff (phrase query : string) :
  lower phrase = phrase ->
  contains phrase (lower query) = true <-> contains_ignoring_case phrase query.
Proof.
  intros Hp; split.
  - intros E. destruct (contains_inv _ _ E) as [a [b Eq]].
    destruct (lower_app_inv _ _ _ Eq) as [pre [rest [-> [E1 E2]]]].
    destruct (lower_app_inv _ _ _ E2) as [mid [suf [-> [E3 E4]]]].
    exists pre, mid, suf. split; [reflexivity | congruence].
  - intros [pre [mid [suf [-> E]]]].
    rewrite !lower_app, E, Hp. apply contains_intro.
Qed.

Lemma char_in_app (c : ascii) (a b : string) :
  char_in c (a +:+ b) = char_in c a || char_in c b.
Proof.
  induction a as [|x a IH]; simpl; [reflexivity|].
  now rewrite IH, orb_assoc.
Qed.

Lemma split_go_nonempty (sep : string) (k : nat) (cur s : string) :
  split_go sep k cur s <> [].
Proof.
  revert k cur; induction s as [|c s IH]; intros k cur; simpl; [discriminate|].
  destruct k; [|apply IH].
  destruct (startswith sep (String c s)); [discriminate | apply IH].
Qed.

Lemma split_go_skip (sep a t cur : string) :
  split_go sep (String.length a) cur (a +:+ t) = split_go sep 0 cur t.
Proof. induction a as [|c a IH]; simpl; [reflexivity | exact IH]. Qed.

(** A separator found at the front closes the current segment. *)
Lemma split_go_match (sep t cur : string) :
  sep <> EmptyString ->
  split_go sep 0 cur (sep +:+ t) = cur :: split_go sep 0 EmptyString t.
Proof.
  intros Hs. destruct sep as [|c rest]; [contradiction|].
  change (String c rest +:+ t) with (String c (rest +:+ t)).
  cbn [split_go].
  change (String c (rest +:+ t)) with (String c rest +:+ t).
  rewrite startswith_app.
  replace (String.length (String c rest) - 1) with (String.length rest)
    by (simpl; lia).
  f_equal. apply split_go_skip.
Qed.

Lemma split_go_absent (sep cur s : string) :
  contains sep s = false -> split_go sep 0 cur s = [cur +:+ s].
Proof.
  revert cur; induction s as [|c s IH]; intros cur E.
  - simpl. now rewrite append_empty_r.
  - pose proof (contains_false_startswith _ _ E) as Es.
    cbn [split_go]. rewrite Es.
    simpl in E. apply orb_false_iff in E as [_ E].
    rewrite (IH _ E), append_assoc. reflexivity.
Qed.

Lemma last_cons_nonempty (A : Type) (x d : A) (l : list A) :
  l <> [] -> last (x :: l) d = last l d.
Proof. destruct l; [contradiction | reflexivity]. Qed.

(** Where the separator cannot overlap itself, the last segment of the
    split is the text after the last occurrence. *)
Lemma split_go_last (sep : string) :
  first_char_unique sep = true ->
  forall (n : nat) (query cur pre suf : string),
    String.length query <= n ->
    last_occurrence sep query pre suf ->
    last (split_go sep 0 cur query) EmptyString = suf.
Proof.
  intros Hu.
  assert (Hne : sep <> EmptyString) by (destruct sep; [discriminate | discriminate]).
  induction n as [|n IH]; intros query cur pre suf Hlen [Hq Hlast].
  - exfalso. subst query. rewrite !length_append in Hlen.
    destruct sep; [contradiction | simpl in Hlen; lia].
  - destruct (startswith sep query) eqn:Es.
    + destruct (startswith_inv _ _ Es) as [t Et].
      rewrite Et, split_go_match by assumption.
      rewrite last_cons_nonempty by apply split_go_nonempty.
      assert (Hcut : sep +:+ t = pre +:+ sep +:+ suf) by congruence.
      destruct (append_eq_append _ _ _ _ Hcut) as [[d [Hpre Ht]] | [d [Hsep Hd]]].
      * (* the last occurrence lies in [t] *)
        apply (IH t EmptyString d suf).
        { subst query. rewrite Et, length_append in Hlen.
          destruct sep; [contradiction | simpl in Hlen; lia]. }
        split; [exact Ht|].
        intros pre' suf' E'.
        specialize (Hlast (sep +:+ pre') suf').
        rewrite Hpre, !length_append in Hlast.
        assert (String.length sep + String.length pre'
                <= String.length sep + String.length d); [|lia].
        apply Hlast. rewrite Et, E', append_assoc. reflexivity.
      * (* the last occurrence starts inside the one at the front *)
        destruct d as [|x d].
        { rewrite append_empty_r in Hsep. simpl in Hd.
          apply (IH t EmptyString EmptyString suf).
          { subst query. rewrite Et, length_append in Hlen.
            destruct sep; [contradiction | simpl in Hlen; lia]. }
          split; [now rewrite <- Hd|].
          intros pre' suf' E'.
          specialize (Hlast (sep +:+ pre') suf').
          rewrite length_append, <- Hsep in Hlast.
          assert (String.length sep + String.length pre' <= String.length sep).
          { apply Hlast. rewrite Et, E', append_assoc. reflexivity. }
          simpl; lia. }
        destruct pre as [|y pre].
        { simpl in Hcut. apply append_inv_head in Hcut. subst t.
          destruct (contains sep suf) eqn:Ec.
          - destruct (contains_inv _ _ Ec) as [p' [s' E']].
            specialize (Hlast (sep +:+ p') s').
            rewrite length_append in Hlast. simpl in Hlast.
            assert (String.length sep + String.length p' <= 0).
            { apply Hlast. rewrite Et, E', append_assoc. reflexivity. }
            destruct sep; [contradiction | simpl in *; lia].
          - rewrite split_go_absent by assumption. reflexivity. }
        exfalso.
        destruct sep as [|c rest]; [contradiction|].
        simpl in Hsep, Hd, Hu.
        injection Hsep as Hy Hrest. injection Hd as Hx Hd.
        rewrite Hrest, char_in_app in Hu. simpl in Hu.
        subst x. rewrite Ascii.eqb_refl in Hu. simpl in Hu.
        rewrite orb_true_r in Hu. discriminate.
    + destruct query as [|c q'].
      { exfalso. destruct pre; [|discriminate].
        destruct sep; [contradiction | discriminate]. }
      cbn [split_go]. rewrite Es.
      destruct pre as [|y pre].
      { simpl in Hq. rewrite Hq, startswith_app in Es. discriminate. }
      simpl in Hq. injection Hq as Hy Hq.
      apply (IH q' _ pre suf).
      { simpl in Hlen. lia. }
      split; [exact Hq|].
      intros pre' suf' E'.
      specialize (Hlast (String c pre') suf'). simpl in Hlast.
      apply le_S_n, Hlast. now rewrite E'.
Qed.

End PyStrFacts.

(* ------------------------------------------------------------------ *)
(** ** What the client leaves untouched                                 *)
(* ------------------------------------------------------------------ *)

Lemma index_last_last (A : Type) (l : list A) (d : A) :
  l <> [] -> index_last l = ret (last l d).
Proof.
  intros Hl. unfold index_last.
  destruct (exists_last Hl) as [l' [x ->]].
  rewrite rev_app_distr, last_last. reflexivity.
Qed.

Lemma evolves_refl (w : world) : evolves w w.
Proof.
  repeat split.
  - exists []; reflexivity.
  - exists []; split; [now rewrite app_nil_r | reflexivity].
Qed.

Lemma evolves_trans (w1 w2 w3 : world) :
  evolves w1 w2 -> evolves w2 w3 -> evolves w1 w3.
Proof.
  intros [Hc1 [[u1 Hs1] [e1 [He1 Hq1]]]] [Hc2 [[u2 Hs2] [e2 [He2 Hq2]]]].
  repeat split.
  - congruence.
  - exists (u1 ++ u2). rewrite Hs1, Hs2, app_assoc. reflexivity.
  - exists (e1 ++ e2). split.
    + rewrite He2, He1, app_assoc. reflexivity.
    + rewrite forallb_app, Hq1, Hq2. reflexivity.
Qed.

Lemma evolves_with_events (w : world) (evs : list event) :
  forallb quiet evs = true -> evolves w (with_events w evs).
Proof.
  intros Hq. repeat split.
  - exists []; reflexivity.
  - exists evs; split; [reflexivity | exact Hq].
Qed.

Section Steady.

Lemma steady_ret (A : Type) (a : A) : steady (ret a).
Proof. intros w r w' E. injection E as _ <-. apply evolves_refl. Qed.

Lemma steady_raise (A : Type) (e : exn) : steady (@raise A e).
Proof. intros w r w' E. injection E as _ <-. apply evolves_refl. Qed.

Lemma steady_out_of_fuel (A : Type) : steady (@out_of_fuel A).
Proof. intros w r w' E. injection E as _ <-. apply evolves_refl. Qed.

Lemma steady_bind (A B : Type) (c : M A) (k : A -> M B) :
  steady c -> (forall a, steady (k a)) -> steady (bind c k).
Proof.
  intros Hc Hk w r w' E. unfold bind in E.
  destruct (c w) as [[a|e|] w1] eqn:Ec; apply Hc in Ec.
  - apply Hk in E. eapply evolves_trans; eassumption.
  - injection E as _ <-. exact Ec.
  - injection E as _ <-. exact Ec.
Qed.

Lemma steady_try_except (A : Type) (catches : exn -> bool)
    (body : M A) (handler : exn -> M A) :
  steady body -> (forall e, steady (handler e)) ->
  steady (try_except catches body handler).
Proof.
  intros Hb Hh w r w' E. unfold try_except in E.
  destruct (body w) as [[a|e|] w1] eqn:Eb; apply Hb in Eb.
  - injection E as _ <-. exact Eb.
  - destruct (catches e).
    + apply Hh in E. eapply evolves_trans; eassumption.
    + injection E as _ <-. exact Eb.
  - injection E as _ <-. exact Eb.
Qed.

Lemma steady_emit (ev : event) : quiet ev = true -> steady (emit ev).
Proof.
  intros Hq w r w' E. injection E as _ <-.
  apply (evolves_with_events w [ev]). simpl. now rewrite Hq.
Qed.

Lemma steady_get_events : steady get_events.
Proof. intros w r w' E. injection E as _ <-. apply evolves_refl. Qed.

Lemma steady_get_self : steady get_self.
Proof. intros w r w' E. injection E as _ <-. apply evolves_refl. Qed.

Lemma steady_of_outcome (A : Type) (o : outcome A) : steady (of_outcome o).
Proof. destruct o; [apply steady_ret | apply steady_raise]. Qed.

Lemma steady_input (prompt : string) : steady (input prompt).
Proof.
  apply steady_bind; [now apply steady_emit|].
  intros _ w r w' E.
  destruct (stdin w) as [|item rest] eqn:Es.
  - injection E as _ <-. apply evolves_refl.
  - assert (Hw : evolves w {| client := client w; stdin := rest; events := events w |}).
    { repeat split.
      - exists [item]. simpl. exact Es.
      - exists []. split; [now rewrite app_nil_r | reflexivity]. }
    destruct item; injection E as _ <-; exact Hw.
Qed.

End Steady.

Create HintDb steady.

#[local] Hint Resolve steady_ret steady_raise steady_out_of_fuel steady_get_events
  steady_get_self steady_of_outcome steady_input : steady.

Ltac steady_step :=
  first
    [ solve [auto with steady]
    | apply steady_emit; reflexivity
    | apply steady_bind; [|intros ?]
    | apply steady_try_except; [|intros ?]
    | progress cbv zeta
    | match goal with
      | |- steady (match ?x with _ => _ end) => destruct x
      end ].

Section ClientFacts.

Context {Obj : Type} `{Str Obj} (env : Env Obj).

Lemma steady_call_tool (name : string) (params : pydict pyval) :
  steady (call_tool env name params).
Proof. unfold call_tool. repeat steady_step. Qed.

Lemma steady_chat (model : string) (messages : list (pydict pyval)) :
  steady (chat env model messages).
Proof. unfold chat. repeat steady_step. Qed.

Lemma steady_call_mcp_tool (name : string) (params : pydict pyval) :
  steady (call_mcp_tool env name params).
Proof.
  unfold call_mcp_tool, get_available_tools.
  repeat first [apply steady_call_tool | steady_step].
Qed.

Lemma steady_float_of_str (s : string) : steady (float_of_str env s).
Proof. unfold float_of_str. repeat steady_step. Qed.

Lemma steady_unpack_lat_lon (tokens : list string) :
  steady (unpack_lat_lon env tokens).
Proof.
  unfold unpack_lat_lon.
  repeat first [apply steady_float_of_str | steady_step].
Qed.

Lemma steady_str_split (s sep : string) : steady (str_split s sep).
Proof. unfold str_split. repeat steady_step. Qed.

Lemma steady_index_last (A : Type) (l : list A) : steady (index_last l).
Proof. unfold index_last. repeat steady_step. Qed.

Lemma steady_process_query (query : string) : steady (process_query env query).
Proof.
  unfold process_query, alert_state, forecast_location.
  repeat first
    [ apply steady_call_mcp_tool | apply steady_chat | apply steady_unpack_lat_lon
    | apply steady_str_split | apply steady_index_last | steady_step ].
Qed.

Lemma steady_chat_loop_body : steady (chat_loop_body env).
Proof.
  unfold chat_loop_body, chat_loop_try, chat_loop_except, print.
  repeat first [apply steady_process_query | steady_step].
Qed.

Lemma steady_while_true (fuel : nat) : steady (while_true env fuel).
Proof.
  induction fuel as [|fuel IH]; simpl.
  - apply steady_out_of_fuel.
  - apply steady_bind; [apply steady_chat_loop_body|].
    intros [|]; [exact IH | apply steady_ret].
Qed.

Lemma steady_chat_loop (fuel : nat) : steady (chat_loop env fuel).
Proof.
  unfold chat_loop, print.
  repeat first [apply steady_while_true | steady_step].
Qed.

End ClientFacts.

(* ------------------------------------------------------------------ *)
(** ** Tool invocation                                                  *)
(* ------------------------------------------------------------------ *)

Section ToolInvocation.

Context {Obj : Type} `{Str Obj} (env : Env Obj).

(** C5.  A tool name that is not in the registry: [call_mcp_tool] returns
    the text [Tool <name> not available.], raises nothing and leaves the
    world as it was, so no remote call has been made. *)
Theorem call_mcp_tool_unregistered
    (tool_name : string) (params : pydict pyval)
    (w : world) (tools : pydict Tool) :
  available_tools (client w) = Some tools ->
  PyDict.mem tool_name tools = false ->
  call_mcp_tool env tool_name params w =
    (Ok ("Tool " +:+ tool_name +:+ " not available."), w).
Proof.
  intros Htools Hmem.
  unfold call_mcp_tool, get_available_tools, bind, get_self.
  rewrite Htools. unfold ret. rewrite Hmem. reflexivity.
Qed.

(** C6.  A registered tool whose remote call raises an exception [e] of
    class [Exception]: [call_mcp_tool] catches it and returns
    [Error calling tool <name>: <str(e)>]; the one remote call is the only
    thing that happened, and the client object (session, registry, exit
    stack) is as before. *)
Theorem call_mcp_tool_remote_failure
    (tool_name : string) (params : pydict pyval)
    (w : world) (tools : pydict Tool) (e : exn) :
  available_tools (client w) = Some tools ->
  PyDict.mem tool_name tools = true ->
  session (client w) = Some tt ->
  session_call_tool env (events w) tool_name params = Raises e ->
  isinstance_Exception e = true ->
  call_mcp_tool env tool_name params w =
    (Ok ("Error calling tool " +:+ tool_name +:+ ": " +:+ exn_str e),
     with_events w [EvCallTool tool_name params]).
Proof.
  intros Htools Hmem Hsession Hcall Hexc.
  unfold call_mcp_tool, get_available_tools, bind, get_self.
  rewrite Htools. unfold ret. rewrite Hmem.
  unfold try_except, call_tool, bind, get_self, get_events, emit.
  rewrite Hsession. cbn [events]. rewrite Hcall. cbn [of_outcome raise].
  rewrite Hexc. reflexivity.
Qed.

(** C7.  A registered tool whose remote call returns: the result is one
    string, the [str] of the items joined by line feeds when the content is
    a list, and the [str] of the content otherwise. *)
Theorem call_mcp_tool_success
    (tool_name : string) (params : pydict pyval)
    (w : world) (tools : pydict Tool) (res : CallToolResult Obj) :
  available_tools (client w) = Some tools ->
  PyDict.mem tool_name tools = true ->
  session (client w) = Some tt ->
  session_call_tool env (events w) tool_name params = Returns res ->
  call_mcp_tool env tool_name params w =
    (Ok match result_content res with
        | ContentList items => PyStr.join PyStr.LF (map str items)
        | ContentOther v => str v
        end,
     with_events w [EvCallTool tool_name params]).
Proof.
  intros Htools Hmem Hsession Hcall.
  unfold call_mcp_tool, get_available_tools, bind, get_self.
  rewrite Htools. unfold ret. rewrite Hmem.
  unfold try_except, call_tool, bind, get_self, get_events, emit.
  rewrite Hsession. cbn [events]. rewrite Hcall. cbn [of_outcome ret].
  destruct (result_content res); reflexivity.
Qed.

End ToolInvocation.

(* ------------------------------------------------------------------ *)
(** ** Query routing                                                    *)
(* ------------------------------------------------------------------ *)

Section Routing.

Context {Obj : Type} `{Str Obj} (env : Env Obj).

Lemma alert_state_value (query : string) (w : world) :
  alert_state query w =
    (Ok (PyStr.upper (PyStr.strip (after_split query alert_trigger))), w).
Proof.
  unfold alert_state, str_split. cbn [PyStr.split].
  unfold bind at 1. cbn [ret].
  rewrite (index_last_last string _ EmptyString) by apply PyStrFacts.split_go_nonempty.
  reflexivity.
Qed.

Lemma forecast_location_value (query : string) (w : world) :
  forecast_location query w =
    (Ok (PyStr.strip (after_split query forecast_trigger)), w).
Proof.
  unfold forecast_location, str_split. cbn [PyStr.split].
  unfold bind at 1. cbn [ret].
  rewrite (index_last_last string _ EmptyString) by apply PyStrFacts.split_go_nonempty.
  reflexivity.
Qed.

Lemma process_query_alert (query : string) (w : world) :
  PyStr.contains alert_trigger (PyStr.lower query) = true ->
  process_query env query w =
    alerts_route env
      (PyStr.upper (PyStr.strip (after_split query alert_trigger))) w.
Proof.
  intros Ha. unfold process_query.
  change "weather alert in" with alert_trigger. rewrite Ha.
  unfold bind. rewrite alert_state_value. reflexivity.
Qed.

Lemma process_query_forecast (query : string) (w : world) :
  PyStr.contains alert_trigger (PyStr.lower query) = false ->
  PyStr.contains forecast_trigger (PyStr.lower query) = true ->
  process_query env query w =
    forecast_route env (PyStr.strip (after_split query forecast_trigger)) w.
Proof.
  intros Ha Hf. unfold process_query.
  change "weather alert in" with alert_trigger. rewrite Ha.
  change "weather forecast for" with forecast_trigger. rewrite Hf.
  unfold bind at 1. rewrite forecast_location_value. reflexivity.
Qed.

Lemma process_query_chat (query : string) (w : world) :
  PyStr.contains alert_trigger (PyStr.lower query) = false ->
  PyStr.contains forecast_trigger (PyStr.lower query) = false ->
  process_query env query w = chat_route env query w.
Proof.
  intros Ha Hf. unfold process_query.
  change "weather alert in" with alert_trigger. rewrite Ha.
  change "weather forecast for" with forecast_trigger. rewrite Hf.
  reflexivity.
Qed.

Lemma alert_test_iff (query : string) :
  PyStr.contains alert_trigger (PyStr.lower query) = true <->
  contains_ignoring_case alert_trigger query.
Proof. apply PyStrFacts.contains_lower_iff. reflexivity. Qed.

Lemma forecast_test_iff (query : string) :
  PyStr.contains forecast_trigger (PyStr.lower query) = true <->
  contains_ignoring_case forecast_trigger query.
Proof. apply PyStrFacts.contains_lower_iff. reflexivity. Qed.

Lemma alert_test_false (query : string) :
  ~ contains_ignoring_case alert_trigger query ->
  PyStr.contains alert_trigger (PyStr.lower query) = false.
Proof.
  intros Hn. destruct (PyStr.contains _ _) eqn:E; [|reflexivity].
  exfalso. apply Hn, alert_test_iff, E.
Qed.

Lemma forecast_test_false (query : string) :
  ~ contains_ignoring_case forecast_trigger query ->
  PyStr.contains forecast_trigger (PyStr.lower query) = false.
Proof.
  intros Hn. destruct (PyStr.contains _ _) eqn:E; [|reflexivity].
  exfalso. apply Hn, forecast_test_iff, E.
Qed.

(** C3.  Routing is containment of the trigger in any letter case, first
    match wins: a query with the alert trigger takes the alerts route; one
    without it but with the forecast trigger takes the forecast route; one
    with neither goes to the chat model; one with both takes the alerts
    route. *)
Theorem process_query_routing (query : string) (w : world) :
  (contains_ignoring_case alert_trigger query ->
     process_query env query w =
       alerts_route env
         (PyStr.upper (PyStr.strip (after_split query alert_trigger))) w)
  /\ (~ contains_ignoring_case alert_trigger query ->
      contains_ignoring_case forecast_trigger query ->
      process_query env query w =
        forecast_route env
          (PyStr.strip (after_split query forecast_trigger)) w)
  /\ (~ contains_ignoring_case alert_trigger query ->
      ~ contains_ignoring_case forecast_trigger query ->
      process_query env query w = chat_route env query w)
  /\ (contains_ignoring_case alert_trigger query ->
      contains_ignoring_case forecast_trigger query ->
      process_query env query w =
        alerts_route env
          (PyStr.upper (PyStr.strip (after_split query alert_trigger))) w).
Proof.
  repeat split.
  - intros Ha. apply process_query_alert, alert_test_iff, Ha.
  - intros Ha Hf. apply process_query_forecast.
    + apply alert_test_false, Ha.
    + apply forecast_test_iff, Hf.
  - intros Ha Hf. apply process_query_chat.
    + apply alert_test_false, Ha.
    + apply forecast_test_false, Hf.
  - intros Ha _. apply process_query_alert, alert_test_iff, Ha.
Qed.

(** C1, at the query [Weather Alert In CA].  The test is made on the
    lower-cased query but the split on the query as typed, so nothing is
    cut off and the whole query, upper-cased, is sent as the state. *)
Theorem alert_mixed_case_sends_whole_query (w : world) :
  process_query env "Weather Alert In CA" w =
    alerts_route env "WEATHER ALERT IN CA" w.
Proof. apply process_query_alert. reflexivity. Qed.

(** C2, at the query [Weather Forecast For 38.5 -120.2].  The split on the
    query as typed cuts nothing off, the first token is [Weather], and the
    query is answered with the invalid-format text without a tool call. *)
Theorem forecast_mixed_case_is_rejected (w : world) :
  py_float env "Weather" = None ->
  process_query env "Weather Forecast For 38.5 -120.2" w =
    (Ok "Invalid location format. Please provide latitude and longitude.", w).
Proof.
  intros Hf. rewrite process_query_forecast by reflexivity.
  unfold forecast_route, try_except, bind.
  replace (PyStr.split_ws (PyStr.strip
             (after_split "Weather Forecast For 38.5 -120.2" forecast_trigger)))
    with ["Weather"; "Forecast"; "For"; "38.5"; "-120.2"] by reflexivity.
  cbn [unpack_lat_lon]. unfold bind, float_of_str. rewrite Hf. reflexivity.
Qed.

Lemma forecast_route_invalid (location : string) (w : world) :
  (forall a b x y,
     PyStr.split_ws location = [a; b] ->
     py_float env a = Some x -> py_float env b = Some y -> False) ->
  forecast_route env location w =
    (Ok "Invalid location format. Please provide latitude and longitude.", w).
Proof.
  intros Hbad. unfold forecast_route, try_except, bind at 1.
  destruct (PyStr.split_ws location) as [|a [|b [|c rest]]] eqn:Et;
    cbn [unpack_lat_lon]; unfold bind, float_of_str, raise, ret.
  - reflexivity.
  - destruct (py_float env a); reflexivity.
  - destruct (py_float env a) as [x|] eqn:Ea; [|reflexivity].
    destruct (py_float env b) as [y|] eqn:Eb; [|reflexivity].
    exfalso. exact (Hbad a b x y eq_refl Ea Eb).
  - destruct (py_float env a); [|reflexivity].
    destruct (py_float env b); [|reflexivity].
    destruct (py_float env c); reflexivity.
Qed.

(** C4.  A query on the forecast route whose extracted location is not
    exactly two tokens that [float] accepts: [process_query] returns the
    fixed invalid-format text and the world is as it was, so no tool has
    been called. *)
Theorem forecast_invalid_location (query : string) (w : world) :
  ~ contains_ignoring_case alert_trigger query ->
  contains_ignoring_case forecast_trigger query ->
  (forall a b x y,
     PyStr.split_ws (PyStr.strip (after_split query forecast_trigger)) = [a; b] ->
     py_float env a = Some x -> py_float env b = Some y -> False) ->
  process_query env query w =
    (Ok "Invalid location format. Please provide latitude and longitude.", w).
Proof.
  intros Ha Hf Hbad.
  rewrite process_query_forecast.
  - apply forecast_route_invalid, Hbad.
  - apply alert_test_false, Ha.
  - apply forecast_test_iff, Hf.
Qed.

Lemma after_split_last (trigger query pre suf : string) :
  first_char_unique trigger = true ->
  last_occurrence trigger query pre suf ->
  after_split query trigger = suf.
Proof.
  intros Hu Hl. unfold after_split.
  apply (PyStrFacts.split_go_last trigger Hu (String.length query)
           query EmptyString pre suf); [lia | exact Hl].
Qed.

(** C10.  Where a trigger phrase occurs in the query as typed, the segment
    kept by [split(...)[-1]] is the text after its last occurrence, which
    is the text after no earlier occurrence; the alerts route gets it
    stripped and upper-cased, the forecast route gets it stripped. *)
Theorem argument_follows_last_occurrence
    (trigger query pre suf : string) (w : world) :
  trigger = alert_trigger \/ trigger = forecast_trigger ->
  last_occurrence trigger query pre suf ->
  after_split query trigger = suf
  /\ (forall pre1 suf1,
        query = pre1 +:+ trigger +:+ suf1 ->
        String.length pre1 < String.length pre -> suf1 <> suf)
  /\ (trigger = alert_trigger ->
      process_query env query w =
        alerts_route env (PyStr.upper (PyStr.strip suf)) w)
  /\ (trigger = forecast_trigger ->
      ~ contains_ignoring_case alert_trigger query ->
      process_query env query w = forecast_route env (PyStr.strip suf) w).
Proof.
  intros Ht Hl.
  assert (Hu : first_char_unique trigger = true)
    by (destruct Ht as [-> | ->]; reflexivity).
  pose proof (after_split_last _ _ _ _ Hu Hl) as Hs.
  destruct Hl as [Hq Hlast].
  repeat split.
  - exact Hs.
  - intros pre1 suf1 Hq1 Hlt ->.
    assert (E : String.length (pre1 +:+ trigger +:+ suf)
                = String.length (pre +:+ trigger +:+ suf)) by congruence.
    rewrite !PyStrFacts.length_append in E. lia.
  - intros ->. rewrite <- Hs. apply process_query_alert.
    rewrite Hq, PyStrFacts.lower_app, PyStrFacts.lower_app.
    apply PyStrFacts.contains_intro.
  - intros -> Ha. rewrite <- Hs. apply process_query_forecast.
    + apply alert_test_false, Ha.
    + rewrite Hq, PyStrFacts.lower_app, PyStrFacts.lower_app.
      apply PyStrFacts.contains_intro.
Qed.

End Routing.

(* ------------------------------------------------------------------ *)
(** ** The chat loop and the lifecycle                                  *)
(* ------------------------------------------------------------------ *)

Lemma entered_app (a b : list event) : entered (a ++ b) = entered a ++ entered b.
Proof.
  induction a as [|ev a IH]; simpl; [reflexivity|].
  destruct ev; simpl; rewrite IH; reflexivity.
Qed.

Lemma released_app (a b : list event) :
  released (a ++ b) = released a ++ released b.
Proof.
  induction a as [|ev a IH]; simpl; [reflexivity|].
  destruct ev; simpl; rewrite IH; reflexivity.
Qed.

Lemma quiet_entered (evs : list event) :
  forallb quiet evs = true -> entered evs = [] /\ released evs = [].
Proof.
  induction evs as [|ev evs IH]; simpl; [auto|].
  intros Hq. apply andb_true_iff in Hq as [Hev Hq].
  destruct ev; simpl in *; try discriminate; auto.
Qed.

Lemma entered_releases (stack : list resource) :
  entered (map EvRelease stack) = [] /\ released (map EvRelease stack) = stack.
Proof.
  induction stack as [|r stack [IH1 IH2]]; simpl; [auto|].
  split; [assumption | now rewrite IH2].
Qed.

Lemma with_events_app (w : world) (a b : list event) :
  with_events (with_events w a) b = with_events w (a ++ b).
Proof. unfold with_events; simpl. now rewrite app_assoc. Qed.

Section CleanUp.

Context {Obj : Type} (env : Env Obj).

(** Leaving the contexts: each of them is left, whatever the others do,
    and the run ends by returning or by raising. *)
Lemma release_all_run (stack : list resource) (in_flight : option exn)
    (w : world) :
  snd (release_all env stack in_flight w)
    = with_events w (map EvRelease stack)
  /\ fst (release_all env stack in_flight w) <> OutOfFuel.
Proof.
  revert in_flight w; induction stack as [|r stack IH]; intros in_flight w.
  - cbn [release_all map]. unfold with_events. rewrite app_nil_r.
    destruct in_flight; destruct w; split; (reflexivity || discriminate).
  - cbn [release_all map]. unfold bind, get_events, emit.
    destruct (context_exit env (events w) r in_flight) as [suppress|e].
    + destruct (IH (if suppress then None else in_flight)
                  {| client := client w; stdin := stdin w;
                     events := events w ++ [EvRelease r] |}) as [IH1 IH2].
      split; [|exact IH2]. rewrite IH1. unfold with_events; cbn.
      now rewrite <- app_assoc.
    + destruct (IH (Some e)
                  {| client := client w; stdin := stdin w;
                     events := events w ++ [EvRelease r] |}) as [IH1 IH2].
      split; [|exact IH2]. rewrite IH1. unfold with_events; cbn.
      now rewrite <- app_assoc.
Qed.

(** Where no context raises on the way out, nothing is raised. *)
Lemma release_all_quietly (stack : list resource) (w : world) :
  (forall evs r in_flight e,
      context_exit env evs r in_flight <> ExitRaises e) ->
  fst (release_all env stack None w) = Ok tt.
Proof.
  intros Hq. revert w; induction stack as [|r stack IH]; intros w.
  - reflexivity.
  - cbn [release_all]. unfold bind, get_events, emit.
    destruct (context_exit env (events w) r None) as [suppress|e] eqn:Ex.
    + destruct suppress; apply IH.
    + exfalso. exact (Hq _ _ _ _ Ex).
Qed.

Lemma cleanup_world (w : world) :
  snd (cleanup env w) =
    {| client := {| session := session (client w);
                    exit_stack := [];
                    available_tools := available_tools (client w) |};
       stdin := stdin w;
       events := events w ++ map EvRelease (exit_stack (client w)) |}.
Proof.
  unfold cleanup, bind, get_self, set_self.
  apply (release_all_run (exit_stack (client w)) None).
Qed.

Lemma cleanup_result (w : world) : fst (cleanup env w) <> OutOfFuel.
Proof.
  unfold cleanup, bind, get_self, set_self.
  apply (release_all_run (exit_stack (client w)) None).
Qed.

End CleanUp.

Lemma isspace_lower_char (c : ascii) :
  PyStr.isspace c = true -> PyStr.lower_char c = c.
Proof.
  destruct c as [[] [] [] [] [] [] [] []]; intros E; vm_compute in E;
    try discriminate E; reflexivity.
Qed.

Lemma lower_char_not_space (c x : ascii) :
  PyStr.lower_char c = x -> PyStr.isspace x = false -> PyStr.isspace c = false.
Proof.
  intros E Hx. destruct (PyStr.isspace c) eqn:Hc; [|reflexivity].
  rewrite (isspace_lower_char _ Hc) in E. congruence.
Qed.

(** A line that is [quit] in some letter case is left as it is by [strip]. *)
Lemma lower_quit_is_quit (line : string) :
  PyStr.lower line = "quit" -> is_quit line = true.
Proof.
  intros E.
  destruct line as [|c1 [|c2 [|c3 [|c4 [|c5 l]]]]]; try discriminate E.
  cbn [PyStr.lower] in E. injection E as E1 E2 E3 E4.
  pose proof (lower_char_not_space _ _ E1 eq_refl) as H1.
  pose proof (lower_char_not_space _ _ E4 eq_refl) as H4.
  unfold is_quit, PyStr.strip. cbn [PyStr.lstrip]. rewrite H1.
  cbn [PyStr.rstrip]. rewrite H4.
  cbn [PyStr.lower]. rewrite E1, E2, E3, E4. reflexivity.
Qed.

Section Loop.

Context {Obj : Type} `{Str Obj} (env : Env Obj).

Lemma chat_loop_body_caught (w w1 : world) (e : exn) :
  chat_loop_try env w = (Raise e, w1) ->
  isinstance_Exception e = true ->
  chat_loop_body env w =
    (Ok Continue,
     with_events w1 [EvPrint [PStr (PyStr.LF +:+ "Error: " +:+ exn_str e)]]).
Proof.
  intros Ht He. unfold chat_loop_body, try_except. rewrite Ht, He. reflexivity.
Qed.

Lemma chat_loop_body_raises (w w' : world) (e : exn) :
  chat_loop_body env w = (Raise e, w') -> isinstance_Exception e = false.
Proof.
  unfold chat_loop_body, try_except.
  destruct (chat_loop_try env w) as [[c|e1|] w1]; try discriminate.
  destruct (isinstance_Exception e1) eqn:He; [discriminate|].
  intros E. injection E as <- _. exact He.
Qed.

Lemma chat_loop_try_quit (w : world) (line : string) (rest : list stdin_item) :
  stdin w = Line line :: rest ->
  is_quit line = true ->
  chat_loop_try env w =
    (Ok Break,
     {| client := client w; stdin := rest;
        events := events w ++ [EvInput (PyStr.LF +:+ "Query: ")] |}).
Proof.
  intros Hs Hq. unfold chat_loop_try, bind, input, bind, emit.
  cbn [stdin client events]. rewrite Hs.
  unfold is_quit in Hq. rewrite Hq. reflexivity.
Qed.

Lemma chat_loop_try_break (w w' : world) :
  chat_loop_try env w = (Ok Break, w') ->
  exists line, stdin w = Line line :: stdin w' /\ is_quit line = true.
Proof.
  unfold chat_loop_try, bind at 1, input, bind, emit.
  cbn [stdin client events].
  destruct (stdin w) as [|[line|e] rest]; try discriminate.
  destruct (String.eqb (PyStr.lower (PyStr.strip line)) "quit") eqn:Hq.
  - intros E. injection E as <-. exists line. auto.
  - destruct (process_query env (PyStr.strip line) _) as [[s|e|] w1];
      discriminate.
Qed.

Lemma chat_loop_body_break (w w' : world) :
  chat_loop_body env w = (Ok Break, w') ->
  exists line, stdin w = Line line :: stdin w' /\ is_quit line = true.
Proof.
  unfold chat_loop_body, try_except.
  destruct (chat_loop_try env w) as [[c|e|] w1] eqn:Et.
  - intros E. injection E as -> ->. apply chat_loop_try_break, Et.
  - destruct (isinstance_Exception e); discriminate.
  - discriminate.
Qed.

Lemma while_true_ends_by_quit (fuel : nat) (w w' : world) :
  while_true env fuel w = (Ok tt, w') ->
  exists items line,
    stdin w = items ++ Line line :: stdin w' /\ is_quit line = true.
Proof.
  revert w; induction fuel as [|fuel IH]; intros w; simpl; [discriminate|].
  unfold bind.
  destruct (chat_loop_body env w) as [[[|]|e|] w1] eqn:Eb; try discriminate.
  - intros E. destruct (IH _ E) as [items [line [Hs Hq]]].
    destruct (steady_chat_loop_body env _ _ _ Eb) as [_ [[used Hu] _]].
    exists (used ++ items), line. split; [|exact Hq].
    rewrite Hu, Hs, app_assoc. reflexivity.
  - intros E. injection E as <-.
    destruct (chat_loop_body_break _ _ Eb) as [line [Hs Hq]].
    exists [], line. auto.
Qed.

Lemma while_true_raises (fuel : nat) (w w' : world) (e : exn) :
  while_true env fuel w = (Raise e, w') -> isinstance_Exception e = false.
Proof.
  revert w; induction fuel as [|fuel IH]; intros w; simpl; [discriminate|].
  unfold bind.
  destruct (chat_loop_body env w) as [[[|]|e1|] w1] eqn:Eb; try discriminate.
  - apply IH.
  - intros E. injection E as <- _. eapply chat_loop_body_raises, Eb.
Qed.

Lemma chat_model_failure_propagates (query : string) (w : world) (e : exn) :
  ~ contains_ignoring_case alert_trigger query ->
  ~ contains_ignoring_case forecast_trigger query ->
  ollama_chat env (events w) "llama3.2:latest"
    [[("role", VStr "user"); ("content", VStr query)]] = Raises e ->
  process_query env query w =
    (Raise e,
     with_events w
       [EvChat "llama3.2:latest"
          [[("role", VStr "user"); ("content", VStr query)]]]).
Proof.
  intros Ha Hf Hc.
  rewrite process_query_chat
    by (apply alert_test_false || apply forecast_test_false; assumption).
  unfold chat_route, bind, chat, bind, get_events, emit.
  cbn [events]. rewrite Hc. reflexivity.
Qed.

Lemma while_true_quit (fuel : nat) (w : world) (line : string)
    (rest : list stdin_item) :
  stdin w = Line line :: rest ->
  is_quit line = true ->
  while_true env (S fuel) w =
    (Ok tt,
     {| client := client w; stdin := rest;
        events := events w ++ [EvInput (PyStr.LF +:+ "Query: ")] |}).
Proof.
  intros Hs Hq. simpl. unfold bind, chat_loop_body, try_except.
  rewrite (chat_loop_try_quit _ _ _ Hs Hq). reflexivity.
Qed.

Lemma connect_to_server_run (path : string) (w w' : world) (r : result unit) :
  connect_to_server env path w = (r, w') ->
  r <> OutOfFuel /\
  exists evs stack,
    events w' = events w ++ evs /\
    exit_stack (client w') = stack ++ exit_stack (client w) /\
    entered evs = rev stack /\ released evs = [] /\ NoDup stack.
Proof.
  unfold connect_to_server.
  destruct (negb (PyStr.endswith ".py" path)).
  { intros E. injection E as <- <-. split; [discriminate|].
    exists [], []. rewrite app_nil_r. repeat split; constructor. }
  unfold enter_async_context, bind, get_events, get_self, set_self, emit, print,
    emit.
  cbn [events client stdin session exit_stack available_tools].
  assert (Hnd : NoDup [Session; StdioTransport "python" [path]]).
  { constructor; [|constructor; [intros []|constructor]].
    intros [E|[]]; discriminate. }
  assert (Hnd1 : NoDup [StdioTransport "python" [path]]).
  { constructor; [intros []|constructor]. }
  destruct (stdio_client_enter env (events w) "python" [path]); cbn.
  { intros E. injection E as <- <-. split; [discriminate|].
    exists [], []. rewrite app_nil_r. repeat split; constructor. }
  destruct (client_session_enter env _); cbn.
  { intros E. injection E as <- <-. split; [discriminate|].
    exists [EvEnter (StdioTransport "python" [path])],
           [StdioTransport "python" [path]].
    repeat split; assumption. }
  destruct (session_initialize env _); cbn.
  { intros E. injection E as <- <-. split; [discriminate|].
    exists [EvEnter (StdioTransport "python" [path]); EvEnter Session;
            EvInitialize],
           [Session; StdioTransport "python" [path]].
    cbn. rewrite <- !app_assoc. repeat split; assumption. }
  destruct (session_list_tools env _); cbn.
  - intros E. injection E as <- <-. split; [discriminate|].
    eexists [EvEnter (StdioTransport "python" [path]); EvEnter Session;
             EvInitialize; EvListTools; EvPrint _],
            [Session; StdioTransport "python" [path]].
    cbn. rewrite <- !app_assoc. repeat split; assumption.
  - intros E. injection E as <- <-. split; [discriminate|].
    exists [EvEnter (StdioTransport "python" [path]); EvEnter Session;
            EvInitialize; EvListTools],
           [Session; StdioTransport "python" [path]].
    cbn. rewrite <- !app_assoc. repeat split; assumption.
Qed.

Lemma main_releases (fuel : nat) (argv : list string) (w w' : world)
    (r : result unit) :
  2 <= length argv ->
  main env fuel argv w = (r, w') ->
  r <> OutOfFuel ->
  exists evs,
    events w' = events w ++ evs /\
    NoDup (entered evs) /\
    released evs = rev (entered evs) /\
    exit_stack (client w') = [].
Proof.
  intros Hlen E Hr. unfold main in E.
  destruct (Nat.ltb_spec (length argv) 2) as [Hlt|_]; [lia|].
  destruct argv as [|prog [|path argv]]; simpl in Hlen; try lia.
  cbn [nth_error] in E.
  unfold bind at 1, set_self at 1, try_finally in E.
  set (w0 := {| client := MCPClient_init; stdin := stdin w; events := events w |})
    in E.
  unfold bind at 1 in E.
  destruct (connect_to_server env path w0) as [rc w1] eqn:Ec.
  destruct (connect_to_server_run _ _ _ _ Ec)
    as [Hrc [evs [stack [Hev [Hst [Hen [Hre Hnd]]]]]]].
  cbn in Hev, Hst. rewrite app_nil_r in Hst.
  assert (Hfin : forall (w2 : world) (evl : list event),
             client w2 = client w1 ->
             events w2 = events w1 ++ evl ->
             forallb quiet evl = true ->
             snd (cleanup env w2) = w' ->
             exists evs0,
               events w' = events w ++ evs0 /\ NoDup (entered evs0) /\
               released evs0 = rev (entered evs0) /\
               exit_stack (client w') = []).
  { intros w2 evl Hc2 He2 Hq2 Hw'.
    rewrite cleanup_world in Hw'. cbn in Hw'. subst w'.
    destruct (quiet_entered _ Hq2) as [Hel Hrl].
    destruct (entered_releases stack) as [Hes Hrs].
    exists (evs ++ evl ++ map EvRelease stack). cbn.
    rewrite Hc2, Hst, He2, Hev, <- !app_assoc.
    rewrite !entered_app, !released_app, Hel, Hrl, Hes, Hrs, Hen, Hre.
    cbn. rewrite !app_nil_r, rev_involutive.
    repeat split. apply NoDup_rev, Hnd. }
  destruct rc as [[]|e|]; [| |contradiction].
  - destruct (chat_loop env fuel w1) as [rl w2] eqn:El.
    destruct (steady_chat_loop env fuel _ _ _ El) as [Hc2 [_ [evl [He2 Hq2]]]].
    apply (Hfin w2 evl Hc2 He2 Hq2).
    destruct (cleanup env w2) as [rf wf].
    destruct rl as [[]|e|]; destruct rf as [[]|ef|]; injection E as <- <-;
      (reflexivity || contradiction).
  - apply (Hfin w1 [] eq_refl); [now rewrite app_nil_r | reflexivity |].
    destruct (cleanup env w1) as [rf wf].
    destruct rf as [[]|ef|]; injection E as <- <-;
      (reflexivity || contradiction).
Qed.

(** C9.  A line that is [quit] in any letter case ends the loop, and the
    prompt of [input] is the only event of that turn; and whenever [main],
    given a server path, returns or raises, every context it entered has
    been released exactly once, last in first out, and the exit stack is
    empty. *)
Theorem quit_ends_loop_and_main_releases_once :
  (forall (fuel : nat) (w : world) (line : string) (rest : list stdin_item),
      stdin w = Line line :: rest ->
      PyStr.lower line = "quit" ->
      while_true env (S fuel) w =
        (Ok tt,
         {| client := client w; stdin := rest;
            events := events w ++ [EvInput (PyStr.LF +:+ "Query: ")] |}))
  /\ (forall (fuel : nat) (argv : list string) (w w' : world)
             (r : result unit),
      2 <= length argv ->
      main env fuel argv w = (r, w') ->
      r <> OutOfFuel ->
      exists evs,
        events w' = events w ++ evs /\
        NoDup (entered evs) /\
        released evs = rev (entered evs) /\
        exit_stack (client w') = []).
Proof.
  split; [|exact main_releases].
  intros fuel w line rest Hs Hq.
  apply (while_true_quit fuel w line rest Hs), lower_quit_is_quit, Hq.
Qed.

End Loop.

(* ------------------------------------------------------------------ *)
(** ** More on the forecast route                                       *)
(* ------------------------------------------------------------------ *)

Section ForecastRoute.

Context {Obj : Type} `{Str Obj} (env : Env Obj).

(** [call_mcp_tool] never raises a [ValueError]: what its own handler lets
    through is not of class [Exception]. *)
Lemma call_mcp_tool_no_ValueError
    (tool_name : string) (params : pydict pyval) (w w' : world) (e : exn) :
  call_mcp_tool env tool_name params w = (Raise e, w') ->
  isinstance_ValueError e = false.
Proof.
  unfold call_mcp_tool, bind at 1.
  assert (Hg : get_available_tools w =
               match available_tools (client w) with
               | Some tools => (Ok tools, w)
               | None =>
                   (Raise (Exn AttributeError
                      "'MCPClient' object has no attribute 'available_tools'"), w)
               end)
    by (unfold get_available_tools, bind, get_self;
        destruct (available_tools (client w)); reflexivity).
  rewrite Hg. clear Hg.
  destruct (available_tools (client w)) as [tools|].
  - destruct (PyDict.mem tool_name tools); [|intros E; discriminate E].
    unfold try_except.
    destruct (bind (call_tool env tool_name params) _ w) as [[s|e1|] w1];
      try (intros E; discriminate E).
    destruct (isinstance_Exception e1) eqn:He; [intros E; discriminate E|].
    intros E. injection E as <- _.
    unfold isinstance_Exception in He. unfold isinstance_ValueError.
    destruct (exn_cls e1); simpl in *; congruence.
  - intros E. injection E as <- _. reflexivity.
Qed.

(** Two tokens that [float] accepts: the forecast route is the call of
    [get_forecast] with the first as latitude and the second as longitude. *)
Lemma forecast_route_valid
    (location a b : string) (x y : float) (w : world) :
  PyStr.split_ws location = [a; b] ->
  py_float env a = Some x ->
  py_float env b = Some y ->
  forecast_route env location w =
    call_mcp_tool env "get_forecast"
      [("latitude", VFloat x); ("longitude", VFloat y)] w.
Proof.
  intros Ht Ha Hb. unfold forecast_route, try_except, bind at 1.
  rewrite Ht. cbn [unpack_lat_lon]. unfold bind, float_of_str.
  rewrite Ha. unfold ret. rewrite Hb. cbn [fst snd].
  destruct (call_mcp_tool env "get_forecast" _ w) as [[s|e|] w1] eqn:Ec;
    try reflexivity.
  rewrite (call_mcp_tool_no_ValueError _ _ _ _ _ Ec). reflexivity.
Qed.

End ForecastRoute.

(** A handy test for the last occurrence: the phrase does not occur again
    from one character further on. *)
Lemma last_occurrence_intro (phrase pre suf : string) :
  match phrase +:+ suf with
  | EmptyString => false
  | String _ rest => negb (PyStr.contains phrase rest)
  end = true ->
  last_occurrence phrase (pre +:+ phrase +:+ suf) pre suf.
Proof.
  intros Hc. split; [reflexivity|].
  intros pre' suf' E.
  destruct (le_lt_dec (String.length pre') (String.length pre)) as [Hle|Hlt];
    [exact Hle|].
  exfalso.
  destruct (PyStrFacts.append_eq_append _ _ _ _ E) as [[d [Hp Hd]] | [d [Hp _]]].
  - destruct d as [|c d].
    + rewrite Hp, PyStrFacts.append_empty_r in Hlt. lia.
    + rewrite Hd in Hc. cbn in Hc.
      rewrite PyStrFacts.contains_intro in Hc. discriminate.
  - rewrite Hp, PyStrFacts.length_append in Hlt. lia.
Qed.

(* ------------------------------------------------------------------ *)
(** ** The properties on the sample environment                         *)
(* ------------------------------------------------------------------ *)

(** A tool the sample provider does not offer. *)
Lemma call_mcp_tool_unregistered_witness :
  call_mcp_tool Sample.env "get_tides" [("station", VStr "SF")]
    (Sample.at_console []) =
  (Ok "Tool get_tides not available.", Sample.at_console []).
Proof.
  apply (call_mcp_tool_unregistered Sample.env "get_tides"
           [("station", VStr "SF")] (Sample.at_console [])
           (tools_by_name [Sample.tool "get_alerts"; Sample.tool "get_forecast";
                           Sample.tool "get_radar"]));
    reflexivity.
Defined.

(** The broken tool of the sample provider. *)
Lemma call_mcp_tool_remote_failure_witness :
  call_mcp_tool Sample.env "get_radar" [] (Sample.at_console []) =
  (Ok "Error calling tool get_radar: Connection closed",
   with_events (Sample.at_console []) [EvCallTool "get_radar" []]).
Proof.
  apply (call_mcp_tool_remote_failure Sample.env "get_radar" []
           (Sample.at_console [])
           (tools_by_name [Sample.tool "get_alerts"; Sample.tool "get_forecast";
                           Sample.tool "get_radar"])
           (Exn Exception_ "Connection closed"));
    reflexivity.
Defined.

(** A list of two content items comes back as two lines. *)
Lemma call_mcp_tool_success_witness :
  call_mcp_tool Sample.env "get_alerts" [("state", VStr "CA")]
    (Sample.at_console []) =
  (Ok ("Event: Flood Watch" +:+ PyStr.LF +:+ "Area: Sacramento"),
   with_events (Sample.at_console [])
     [EvCallTool "get_alerts" [("state", VStr "CA")]]).
Proof.
  exact (call_mcp_tool_success Sample.env "get_alerts" [("state", VStr "CA")]
           (Sample.at_console [])
           (tools_by_name [Sample.tool "get_alerts"; Sample.tool "get_forecast";
                           Sample.tool "get_radar"])
           {| result_content :=
                ContentList ["Event: Flood Watch"; "Area: Sacramento"] |}
           eq_refl eq_refl eq_refl eq_refl).
Defined.

(** A query with both triggers, the first of them capitalised. *)
Lemma process_query_routing_witness :
  process_query Sample.env "Weather Alert In tx, no weather forecast for 1 2"
    (Sample.at_console []) =
  alerts_route Sample.env
    (PyStr.upper (PyStr.strip
       (after_split "Weather Alert In tx, no weather forecast for 1 2"
          alert_trigger)))
    (Sample.at_console []).
Proof.
  apply (proj2 (proj2 (proj2
           (process_query_routing Sample.env
              "Weather Alert In tx, no weather forecast for 1 2"
              (Sample.at_console []))))).
  - exists "", "Weather Alert In", " tx, no weather forecast for 1 2".
    split; reflexivity.
  - exists "Weather Alert In tx, no ", "weather forecast for", " 1 2".
    split; reflexivity.
Defined.

(** The sample parser rejects the word [Weather]. *)
Lemma forecast_mixed_case_is_rejected_witness :
  process_query Sample.env "Weather Forecast For 38.5 -120.2"
    (Sample.at_console []) =
  (Ok "Invalid location format. Please provide latitude and longitude.",
   Sample.at_console []).
Proof.
  apply (forecast_mixed_case_is_rejected Sample.env (Sample.at_console [])).
  reflexivity.
Defined.

(** The query of the specification, [weather forecast for abc]. *)
Lemma forecast_invalid_location_witness :
  process_query Sample.env "weather forecast for abc" (Sample.at_console []) =
  (Ok "Invalid location format. Please provide latitude and longitude.",
   Sample.at_console []).
Proof.
  apply (forecast_invalid_location Sample.env "weather forecast for abc"
           (Sample.at_console [])).
  - intros Hc. apply alert_test_iff in Hc. vm_compute in Hc. discriminate Hc.
  - exists "", "weather forecast for", " abc". split; reflexivity.
  - intros a b x y E. vm_compute in E. discriminate E.
Defined.

(** Two occurrences of the alert trigger: the state is taken after the
    second one. *)
Lemma argument_follows_last_occurrence_witness :
  after_split "weather alert in CA or weather alert in ny" alert_trigger = " ny"
  /\ (forall pre1 suf1,
        "weather alert in CA or weather alert in ny"
          = pre1 +:+ alert_trigger +:+ suf1 ->
        String.length pre1 < String.length "weather alert in CA or " ->
        suf1 <> " ny")
  /\ (alert_trigger = alert_trigger ->
      process_query Sample.env "weather alert in CA or weather alert in ny"
        (Sample.at_console []) =
      alerts_route Sample.env (PyStr.upper (PyStr.strip " ny"))
        (Sample.at_console []))
  /\ (alert_trigger = forecast_trigger ->
      ~ contains_ignoring_case alert_trigger
          "weather alert in CA or weather alert in ny" ->
      process_query Sample.env "weather alert in CA or weather alert in ny"
        (Sample.at_console []) =
      forecast_route Sample.env (PyStr.strip " ny") (Sample.at_console [])).
Proof.
  apply (argument_follows_last_occurrence Sample.env alert_trigger
           "weather alert in CA or weather alert in ny"
           "weather alert in CA or " " ny" (Sample.at_console [])).
  - left. reflexivity.
  - apply (last_occurrence_intro alert_trigger "weather alert in CA or " " ny").
    reflexivity.
Defined.

(** A whole run of [main]: one query, then [quit]. *)
Lemma quit_ends_loop_and_main_releases_once_witness :
  exists evs,
    events (snd (main Sample.env 5 ["client.py"; "weather.py"]
                   (Sample.fresh [Line "weather alert in ca"; Line "quit"])))
      = [] ++ evs
    /\ NoDup (entered evs)
    /\ released evs = rev (entered evs)
    /\ exit_stack
         (client (snd (main Sample.env 5 ["client.py"; "weather.py"]
                         (Sample.fresh [Line "weather alert in ca"; Line "quit"]))))
       = [].
Proof.
  apply (proj2 (quit_ends_loop_and_main_releases_once Sample.env) 5
           ["client.py"; "weather.py"]
           (Sample.fresh [Line "weather alert in ca"; Line "quit"])
           _ (Ok tt)).
  - simpl. lia.
  - reflexivity.
  - discriminate.
Defined.

(** The two example turns of the specification. *)
Example turn_alert_ca :
  events (snd (process_query Sample.env "weather alert in ca"
                 (Sample.at_console []))) =
  [EvCallTool "get_alerts" [("state", VStr "CA")]].
Proof. reflexivity. Qed.

Example turn_forecast :
  Sample.decimal_float "38.5" = Some (385 / 10)%float /\
  Sample.decimal_float "-120.2" = Some (- (1202 / 10))%float /\
  events (snd (process_query Sample.env "weather forecast for 38.5 -120.2"
                 (Sample.at_console []))) =
  [EvCallTool "get_forecast"
     [("latitude", VFloat (385 / 10)%float);
      ("longitude", VFloat (- (1202 / 10))%float)]].
Proof. repeat split; reflexivity. Qed.

(** The capitalised trigger: the state sent to the provider is the whole
    query. *)
Example turn_alert_capitalised :
  events (snd (process_query Sample.env "Weather Alert In CA"
                 (Sample.at_console []))) =
  [EvCallTool "get_alerts" [("state", VStr "WEATHER ALERT IN CA")]].
Proof. reflexivity. Qed.

(** The exit paths of [main]: a normal quit, a failure at start-up (the
    script is not there), an interrupt at the prompt, no argument at all,
    and a run that is still going when the fuel is spent. *)
Example main_quit :
  let run := main Sample.env 5 ["client.py"; "weather.py"]
               (Sample.fresh [Line "hello"; Line " QUIT "]) in
  fst run = Ok tt /\
  released (events (snd run)) = [Session; StdioTransport "python" ["weather.py"]].
Proof. split; reflexivity. Qed.

Example main_startup_failure :
  let run := main Sample.env 5 ["client.py"; "missing.py"] (Sample.fresh []) in
  fst run = Raise (Exn Exception_ "No such file or directory") /\
  entered (events (snd run)) = [] /\ released (events (snd run)) = [].
Proof. repeat split; reflexivity. Qed.

Example main_not_a_python_file :
  fst (main Sample.env 5 ["client.py"; "weather.sh"] (Sample.fresh [])) =
  Raise (Exn ValueError "Server script must be a Python (.py) file").
Proof. reflexivity. Qed.

Example main_interrupted :
  let run := main Sample.env 5 ["client.py"; "weather.py"]
               (Sample.fresh [Line "hello"; Signal (Exn KeyboardInterrupt "")]) in
  fst run = Raise (Exn KeyboardInterrupt "") /\
  released (events (snd run)) = [Session; StdioTransport "python" ["weather.py"]].
Proof. split; reflexivity. Qed.

Example main_usage :
  main Sample.env 5 ["client.py"] (Sample.fresh []) =
  (Raise (Exn SystemExit "1"),
   with_events (Sample.fresh [])
     [EvPrint [PStr "Usage: python client.py <path_to_server_script>"]]).
Proof. reflexivity. Qed.

Example main_at_end_of_input :
  fst (main Sample.env 5 ["client.py"; "weather.py"] (Sample.fresh [Line "hello"]))
  = OutOfFuel.
Proof. reflexivity. Qed.

(** After a tool call that failed the session serves the next one. *)
Example failure_then_success :
  (call_mcp_tool Sample.env "get_radar" [] ;;
   call_mcp_tool Sample.env "get_forecast"
     [("latitude", VFloat 1); ("longitude", VFloat 2)])
    (Sample.at_console []) =
  (Ok "Sunny, 75F",
   with_events (Sample.at_console [])
     [EvCallTool "get_radar" [];
      EvCallTool "get_forecast"
        [("latitude", VFloat 1); ("longitude", VFloat 2)]]).
Proof. reflexivity. Qed.

(** [connect_to_server] on a fresh client leaves the sample client. *)
Example connect_leaves_connected :
  let run := (set_self MCPClient_init ;;
              connect_to_server Sample.env "weather.py") (Sample.fresh []) in
  fst run = Ok tt /\ client (snd run) = Sample.connected.
Proof. split; reflexivity. Qed.

(* ------------------------------------------------------------------ *)
(** ** More facts about the text operations                             *)
(* ------------------------------------------------------------------ *)

Lemma lstrip_all_space (pad : string) :
  all_space pad = true -> PyStr.lstrip pad = EmptyString.
Proof.
  induction pad as [|c pad IH]; simpl; [reflexivity|].
  intros E. apply andb_true_iff in E as [Ec Ep]. rewrite Ec. auto.
Qed.

Lemma rstrip_all_space (pad : string) :
  all_space pad = true -> PyStr.rstrip pad = EmptyString.
Proof.
  induction pad as [|c pad IH]; simpl; [reflexivity|].
  intros E. apply andb_true_iff in E as [Ec Ep]. rewrite (IH Ep), Ec. reflexivity.
Qed.

Lemma lstrip_padding (pad s : string) :
  all_space pad = true -> PyStr.lstrip (pad +:+ s) = PyStr.lstrip s.
Proof.
  induction pad as [|c pad IH]; simpl; [reflexivity|].
  intros E. apply andb_true_iff in E as [Ec Ep]. rewrite Ec. auto.
Qed.

Lemma rstrip_padding (s pad : string) :
  all_space pad = true -> PyStr.rstrip (s +:+ pad) = PyStr.rstrip s.
Proof.
  intros Hp. induction s as [|c s IH]; simpl.
  - apply rstrip_all_space, Hp.
  - rewrite IH. reflexivity.
Qed.

Lemma strip_padding_right (s pad : string) :
  all_space pad = true -> PyStr.strip (s +:+ pad) = PyStr.strip s.
Proof.
  intros Hp. unfold PyStr.strip. induction s as [|c s IH]; simpl.
  - rewrite (lstrip_all_space _ Hp). reflexivity.
  - destruct (PyStr.isspace c); [exact IH|].
    apply (rstrip_padding (String c s) pad Hp).
Qed.

(** Whitespace around a text does not change what [strip] returns. *)
Lemma strip_padding (a s b : string) :
  all_space a = true -> all_space b = true ->
  PyStr.strip (a +:+ s +:+ b) = PyStr.strip s.
Proof.
  intros Ha Hb. unfold PyStr.strip at 1. rewrite lstrip_padding by assumption.
  apply strip_padding_right, Hb.
Qed.

Lemma first_is_space_lstrip (s : string) :
  first_is_space (PyStr.lstrip s) = false.
Proof.
  induction s as [|c s IH]; simpl; [reflexivity|].
  destruct (PyStr.isspace c) eqn:Ec; [exact IH | simpl; exact Ec].
Qed.

Lemma last_is_space_rstrip (s : string) :
  last_is_space (PyStr.rstrip s) = false.
Proof.
  induction s as [|c s IH]; simpl; [reflexivity|].
  destruct (PyStr.rstrip s) as [|d r] eqn:Er.
  - destruct (PyStr.isspace c) eqn:Ec; simpl; [reflexivity | exact Ec].
  - exact IH.
Qed.

Lemma first_is_space_rstrip (s : string) :
  first_is_space s = false -> first_is_space (PyStr.rstrip s) = false.
Proof.
  destruct s as [|c s]; simpl; [reflexivity|].
  intros Ec. destruct (PyStr.rstrip s); [rewrite Ec|]; simpl; auto.
Qed.

Lemma has_lower_app (a b : string) :
  has_lower (a +:+ b) = has_lower a || has_lower b.
Proof.
  induction a as [|c a IH]; simpl; [reflexivity|].
  now rewrite IH, orb_assoc.
Qed.

Lemma has_lower_upper_char (c : ascii) : has_lower (PyStr.upper_char c) = false.
Proof. destruct c as [[] [] [] [] [] [] [] []]; reflexivity. Qed.

Lemma has_lower_upper (s : string) : has_lower (PyStr.upper s) = false.
Proof.
  induction s as [|c s IH]; simpl; [reflexivity|].
  now rewrite has_lower_app, has_lower_upper_char, IH.
Qed.

(** The upper-case form of a character is never empty, and it starts and
    ends with whitespace just when the character is whitespace. *)
Lemma first_is_space_upper_char (c : ascii) (t : string) :
  first_is_space (PyStr.upper_char c +:+ t) = PyStr.isspace c.
Proof. destruct c as [[] [] [] [] [] [] [] []]; reflexivity. Qed.

Lemma last_is_space_upper_char (c : ascii) :
  last_is_space (PyStr.upper_char c) = PyStr.isspace c.
Proof. destruct c as [[] [] [] [] [] [] [] []]; reflexivity. Qed.

Lemma upper_char_not_empty (c : ascii) (t : string) :
  PyStr.upper_char c +:+ t <> EmptyString.
Proof. destruct c as [[] [] [] [] [] [] [] []]; discriminate. Qed.

Lemma last_is_space_app (a b : string) :
  b <> EmptyString -> last_is_space (a +:+ b) = last_is_space b.
Proof.
  intros Hb. induction a as [|c a IH]; [reflexivity|].
  cbn [String.append last_is_space]. rewrite IH.
  destruct (a +:+ b) eqn:E; [|reflexivity].
  destruct a; [simpl in E; contradiction | discriminate E].
Qed.

Lemma first_is_space_upper (s : string) :
  first_is_space (PyStr.upper s) = first_is_space s.
Proof.
  destruct s as [|c s]; [reflexivity|].
  cbn [PyStr.upper]. apply first_is_space_upper_char.
Qed.

Lemma last_is_space_upper (s : string) :
  last_is_space (PyStr.upper s) = last_is_space s.
Proof.
  induction s as [|c s IH]; [reflexivity|].
  destruct s as [|d s].
  - cbn [PyStr.upper]. rewrite PyStrFacts.append_empty_r.
    apply last_is_space_upper_char.
  - cbn [PyStr.upper] in *. rewrite last_is_space_app
      by apply upper_char_not_empty.
    exact IH.
Qed.

(** The tokens of [split()] are those of the stripped text. *)
Lemma split_ws_go_space (c : ascii) (s : string) :
  PyStr.isspace c = true ->
  PyStr.split_ws_go EmptyString (String c s) = PyStr.split_ws_go EmptyString s.
Proof. intros Ec. simpl. rewrite Ec. reflexivity. Qed.

Lemma split_ws_lstrip (s : string) :
  PyStr.split_ws (PyStr.lstrip s) = PyStr.split_ws s.
Proof.
  unfold PyStr.split_ws. induction s as [|c s IH]; [reflexivity|].
  cbn [PyStr.lstrip]. destruct (PyStr.isspace c) eqn:Ec; [|reflexivity].
  rewrite split_ws_go_space by assumption. exact IH.
Qed.

Lemma split_ws_go_rstrip (s cur : string) :
  PyStr.split_ws_go cur (PyStr.rstrip s) = PyStr.split_ws_go cur s.
Proof.
  revert cur; induction s as [|c s IH]; intros cur; [reflexivity|].
  cbn [PyStr.rstrip].
  destruct (PyStr.rstrip s) as [|d r] eqn:Er.
  - destruct (PyStr.isspace c) eqn:Ec.
    + cbn [PyStr.split_ws_go]. rewrite Ec.
      rewrite <- (IH EmptyString). destruct cur; reflexivity.
    + cbn [PyStr.split_ws_go]. rewrite Ec. apply IH.
  - cbn [PyStr.split_ws_go].
    destruct (PyStr.isspace c); [destruct cur|]; rewrite <- IH; reflexivity.
Qed.

Lemma split_ws_strip (s : string) :
  PyStr.split_ws (PyStr.strip s) = PyStr.split_ws s.
Proof.
  unfold PyStr.strip, PyStr.split_ws at 1.
  rewrite split_ws_go_rstrip. apply split_ws_lstrip.
Qed.

(** At a whitespace character the scan starts afresh. *)
Lemma split_ws_go_cut (u rest cur : string) (sp : ascii) :
  PyStr.isspace sp = true ->
  PyStr.split_ws_go cur (u +:+ String sp rest) =
    PyStr.split_ws_go cur (u +:+ String sp EmptyString)
    ++ PyStr.split_ws_go EmptyString rest.
Proof.
  intros Hs. revert cur; induction u as [|c u IH]; intros cur.
  - simpl. rewrite Hs. destruct cur; reflexivity.
  - cbn [String.append PyStr.split_ws_go].
    destruct (PyStr.isspace c).
    + destruct cur; rewrite IH; reflexivity.
    + apply IH.
Qed.

Lemma append_not_empty (cur : string) (c : ascii) :
  cur +:+ String c EmptyString <> EmptyString.
Proof. destruct cur; discriminate. Qed.

Lemma split_ws_go_pending (cur s : string) :
  cur <> EmptyString -> PyStr.split_ws_go cur s <> [].
Proof.
  revert cur; induction s as [|c s IH]; intros cur Hc.
  - destruct cur; [contradiction | discriminate].
  - cbn [PyStr.split_ws_go]. destruct (PyStr.isspace c).
    + destruct cur; [contradiction | discriminate].
    + apply IH, append_not_empty.
Qed.

Lemma split_ws_go_other (cur s : string) (c : ascii) :
  PyStr.isspace c = false ->
  PyStr.split_ws_go cur (String c s) =
    PyStr.split_ws_go (cur +:+ String c EmptyString) s.
Proof. intros Hc. cbn [PyStr.split_ws_go]. rewrite Hc. reflexivity. Qed.

(** A word that ends right before a whitespace character is a token. *)
Lemma split_ws_go_word (u cur : string) (c sp : ascii) :
  PyStr.isspace c = false ->
  PyStr.split_ws_go cur (u +:+ String c (String sp EmptyString)) <> [].
Proof.
  intros Hc. revert cur; induction u as [|d u IH]; intros cur.
  - cbn [String.append]. rewrite split_ws_go_other by exact Hc.
    apply split_ws_go_pending, append_not_empty.
  - cbn [String.append]. destruct (PyStr.isspace d) eqn:Ed.
    + cbn [PyStr.split_ws_go]. rewrite Ed.
      destruct cur; [apply IH|discriminate].
    + rewrite split_ws_go_other by exact Ed. apply IH.
Qed.

Lemma length_ge_1 (A : Type) (l : list A) : l <> [] -> 1 <= length l.
Proof. destruct l; [contradiction | simpl; lia]. Qed.

(** Three words, each ending in a character that is no whitespace, with
    whitespace between them: at least three tokens. *)
Lemma split_ws_three_words (u1 u2 u3 : string) (c1 c2 c3 s1 s2 : ascii) :
  PyStr.isspace c1 = false -> PyStr.isspace c2 = false ->
  PyStr.isspace c3 = false ->
  PyStr.isspace s1 = true -> PyStr.isspace s2 = true ->
  3 <= length (PyStr.split_ws
                 (u1 +:+ String c1 (String s1
                   (u2 +:+ String c2 (String s2 (String c3 u3)))))).
Proof.
  intros H1 H2 H3 Hs1 Hs2. unfold PyStr.split_ws.
  replace (u1 +:+ String c1 (String s1 (u2 +:+ String c2 (String s2 (String c3 u3)))))
    with ((u1 +:+ String c1 EmptyString)
            +:+ String s1 (u2 +:+ String c2 (String s2 (String c3 u3))))
    by (rewrite PyStrFacts.append_assoc; reflexivity).
  rewrite split_ws_go_cut by assumption.
  replace (u2 +:+ String c2 (String s2 (String c3 u3)))
    with ((u2 +:+ String c2 EmptyString) +:+ String s2 (String c3 u3))
    by (rewrite PyStrFacts.append_assoc; reflexivity).
  rewrite (split_ws_go_cut (u2 +:+ String c2 EmptyString) (String c3 u3)
             EmptyString s2 Hs2).
  rewrite !length_app.
  rewrite !PyStrFacts.append_assoc. cbn [String.append].
  pose proof (length_ge_1 _ _ (split_ws_go_word u1 EmptyString c1 s1 H1)).
  pose proof (length_ge_1 _ _ (split_ws_go_word u2 EmptyString c2 s2 H2)).
  assert (1 <= length (PyStr.split_ws_go EmptyString (String c3 u3))).
  { apply length_ge_1. rewrite split_ws_go_other by exact H3.
    apply split_ws_go_pending. discriminate. }
  lia.
Qed.

Lemma lower_char_space (c : ascii) :
  PyStr.lower_char c = " "%char -> c = " "%char.
Proof.
  destruct c as [[] [] [] [] [] [] [] []]; intros E; vm_compute in E;
    try discriminate E; reflexivity.
Qed.

(** A text with the forecast trigger in it, in whatever letter case, has at
    least three tokens. *)
Lemma forecast_trigger_three_tokens (query : string) :
  contains_ignoring_case forecast_trigger query ->
  3 <= length (PyStr.split_ws query).
Proof.
  intros [pre [mid [suf [-> E]]]].
  change (PyStr.lower forecast_trigger) with "weather forecast for" in E.
  destruct mid as [|a1 mid]; [discriminate E|].
  destruct mid as [|a2 mid]; [discriminate E|].
  destruct mid as [|a3 mid]; [discriminate E|].
  destruct mid as [|a4 mid]; [discriminate E|].
  destruct mid as [|a5 mid]; [discriminate E|].
  destruct mid as [|a6 mid]; [discriminate E|].
  destruct mid as [|a7 mid]; [discriminate E|].
  destruct mid as [|a8 mid]; [discriminate E|].
  destruct mid as [|a9 mid]; [discriminate E|].
  destruct mid as [|a10 mid]; [discriminate E|].
  destruct mid as [|a11 mid]; [discriminate E|].
  destruct mid as [|a12 mid]; [discriminate E|].
  destruct mid as [|a13 mid]; [discriminate E|].
  destruct mid as [|a14 mid]; [discriminate E|].
  destruct mid as [|a15 mid]; [discriminate E|].
  destruct mid as [|a16 mid]; [discriminate E|].
  destruct mid as [|a17 mid]; [discriminate E|].
  destruct mid as [|a18 mid]; [discriminate E|].
  destruct mid as [|a19 mid]; [discriminate E|].
  destruct mid as [|a20 mid]; [discriminate E|].
  destruct mid; [|discriminate E].
  cbn [PyStr.lower] in E.
  injection E as E1 E2 E3 E4 E5 E6 E7 E8 E9 E10 E11 E12 E13 E14 E15 E16 E17
    E18 E19 E20.
  pose proof (lower_char_not_space _ _ E7 eq_refl) as H7.
  pose proof (lower_char_not_space _ _ E16 eq_refl) as H16.
  pose proof (lower_char_not_space _ _ E18 eq_refl) as H18.
  assert (H8 : PyStr.isspace a8 = true)
    by (rewrite (lower_char_space _ E8); reflexivity).
  assert (H17 : PyStr.isspace a17 = true)
    by (rewrite (lower_char_space _ E17); reflexivity).
  cbn [String.append].
  replace (pre +:+ String a1 (String a2 (String a3 (String a4 (String a5
    (String a6 (String a7 (String a8 (String a9 (String a10 (String a11
    (String a12 (String a13 (String a14 (String a15 (String a16 (String a17
    (String a18 (String a19 (String a20 (suf)))))))))))))))))))))
    with ((pre +:+ String a1 (String a2 (String a3 (String a4 (String a5
      (String a6 (EmptyString))))))) +:+ String a7 (String a8 ((String a9
      (String a10 (String a11 (String a12 (String a13 (String a14 (String a15
      (EmptyString)))))))) +:+ String a16 (String a17 (String a18 (String a19
      (String a20 (suf))))))))
    by (rewrite PyStrFacts.append_assoc; reflexivity).
  apply split_ws_three_words; assumption.
Qed.

(** Without the separator in it, a text is the one segment of its split. *)
Lemma after_split_absent (query sep : string) :
  PyStr.contains sep query = false -> after_split query sep = query.
Proof.
  intros E. unfold after_split. rewrite PyStrFacts.split_go_absent by exact E.
  reflexivity.
Qed.

(* ------------------------------------------------------------------ *)
(** ** The registry                                                     *)
(* ------------------------------------------------------------------ *)

Lemma get_set_same (V : Type) (k : string) (v : V) (d : pydict V) :
  PyDict.get k (PyDict.set k v d) = Some v.
Proof.
  induction d as [|[k' v'] d IH]; simpl.
  - now rewrite String.eqb_refl.
  - destruct (String.eqb k k') eqn:E; simpl; rewrite ?String.eqb_refl, ?E; auto.
Qed.

Lemma get_set_other (V : Type) (k k' : string) (v : V) (d : pydict V) :
  String.eqb k' k = false ->
  PyDict.get k' (PyDict.set k v d) = PyDict.get k' d.
Proof.
  intros Hk. induction d as [|[k0 v0] d IH]; simpl.
  - now rewrite Hk.
  - destruct (String.eqb k k0) eqn:E; simpl.
    + apply String.eqb_eq in E as <-. now rewrite Hk.
    + now rewrite IH.
Qed.

Lemma get_set (V : Type) (k k' : string) (v : V) (d : pydict V) :
  PyDict.get k' (PyDict.set k v d) =
    if String.eqb k' k then Some v else PyDict.get k' d.
Proof.
  destruct (String.eqb k' k) eqn:E.
  - apply String.eqb_eq in E as ->. apply get_set_same.
  - apply get_set_other, E.
Qed.

Lemma mem_keys (V : Type) (k : string) (d : pydict V) :
  PyDict.mem k d = true <-> In k (PyDict.keys d).
Proof.
  unfold PyDict.mem, PyDict.keys.
  induction d as [|[k' v'] d IH]; simpl.
  - split; [discriminate | contradiction].
  - destruct (String.eqb k k') eqn:E.
    + apply String.eqb_eq in E. split; auto.
    + apply String.eqb_neq in E. rewrite IH. split; [auto|].
      intros [E'|Hin]; [congruence | exact Hin].
Qed.

Lemma keys_set (V : Type) (k : string) (v : V) (d : pydict V) :
  PyDict.keys (PyDict.set k v d) =
    if PyDict.mem k d then PyDict.keys d else PyDict.keys d ++ [k].
Proof.
  unfold PyDict.mem, PyDict.keys.
  induction d as [|[k' v'] d IH]; simpl; [reflexivity|].
  destruct (String.eqb k k') eqn:E; simpl.
  - apply String.eqb_eq in E as ->. reflexivity.
  - rewrite IH. destruct (PyDict.get k d); reflexivity.
Qed.

Lemma NoDup_keys_set (V : Type) (k : string) (v : V) (d : pydict V) :
  NoDup (PyDict.keys d) -> NoDup (PyDict.keys (PyDict.set k v d)).
Proof.
  intros Hd. rewrite keys_set. destruct (PyDict.mem k d) eqn:Em; [exact Hd|].
  apply NoDup_rev in Hd. rewrite <- (rev_involutive (_ ++ [k])).
  apply NoDup_rev. rewrite rev_app_distr. simpl. constructor; [|exact Hd].
  rewrite <- in_rev. intros Hin. apply mem_keys in Hin. congruence.
Qed.

Lemma fold_tools_get (name : string) (tools : list Tool) (d : pydict Tool) :
  PyDict.get name
    (fold_left (fun acc tool => PyDict.set (tool_name tool) tool acc) tools d) =
  match last_named name tools with
  | Some found => Some found
  | None => PyDict.get name d
  end.
Proof.
  revert d; induction tools as [|tool rest IH]; intros d; simpl; [reflexivity|].
  rewrite IH. destruct (last_named name rest); [reflexivity|].
  rewrite get_set. destruct (String.eqb name (tool_name tool)); reflexivity.
Qed.

Lemma fold_tools_NoDup (tools : list Tool) (d : pydict Tool) :
  NoDup (PyDict.keys d) ->
  NoDup (PyDict.keys
           (fold_left (fun acc tool => PyDict.set (tool_name tool) tool acc)
              tools d)).
Proof.
  revert d; induction tools as [|tool rest IH]; intros d Hd; simpl; [exact Hd|].
  apply IH, NoDup_keys_set, Hd.
Qed.

Lemma last_named_some (name : string) (tools : list Tool) :
  (exists found, last_named name tools = Some found) <->
  In name (map tool_name tools).
Proof.
  induction tools as [|tool rest IH]; simpl.
  - split; [intros [f E]; discriminate | contradiction].
  - destruct (last_named name rest) as [f|].
    + split; [|eauto]. intros _. right. apply IH. eauto.
    + destruct (String.eqb name (tool_name tool)) eqn:E.
      * apply String.eqb_eq in E. split; eauto.
      * apply String.eqb_neq in E. split.
        -- intros [f Ef]; discriminate.
        -- intros [E'|Hin]; [congruence|].
           apply IH in Hin as [f Ef]. discriminate.
Qed.

Lemma last_named_name (name : string) (tools : list Tool) (found : Tool) :
  last_named name tools = Some found ->
  In found tools /\ tool_name found = name.
Proof.
  induction tools as [|tool rest IH]; simpl; [discriminate|].
  destruct (last_named name rest) as [f|].
  - intros E. injection E as ->. destruct (IH eq_refl). auto.
  - destruct (String.eqb name (tool_name tool)) eqn:E; [|discriminate].
    apply String.eqb_eq in E. intros E'. injection E' as <-. auto.
Qed.

(** X5.  The registry built from the tools the provider lists: a name is in
    it exactly when some listed tool carries it, it maps the name to the
    last such tool, and its keys are pairwise distinct. *)
Theorem tools_by_name_registry (tools : list Tool) (name : string) :
  (PyDict.mem name (tools_by_name tools) = true <->
     In name (map tool_name tools))
  /\ PyDict.get name (tools_by_name tools) = last_named name tools
  /\ NoDup (PyDict.keys (tools_by_name tools)).
Proof.
  assert (Hget : PyDict.get name (tools_by_name tools) = last_named name tools).
  { unfold tools_by_name. rewrite fold_tools_get.
    destruct (last_named name tools); reflexivity. }
  split; [|split; [exact Hget|]].
  - unfold PyDict.mem. rewrite Hget, <- last_named_some.
    destruct (last_named name tools) as [f|].
    + split; eauto.
    + split; [discriminate | intros [f E]; discriminate].
  - unfold tools_by_name. apply fold_tools_NoDup. constructor.
Qed.

(* ------------------------------------------------------------------ *)
(** ** Tool invocation, continued                                       *)
(* ------------------------------------------------------------------ *)

Section MoreToolInvocation.

Context {Obj : Type} `{Str Obj} (env : Env Obj).

Lemma get_available_tools_run (w : world) :
  get_available_tools w =
    match available_tools (client w) with
    | Some tools => (Ok tools, w)
    | None =>
        (Raise (Exn AttributeError
                  "'MCPClient' object has no attribute 'available_tools'"), w)
    end.
Proof.
  unfold get_available_tools, bind, get_self.
  destruct (available_tools (client w)); reflexivity.
Qed.

Lemma call_tool_run (name : string) (params : pydict pyval) (w : world) :
  call_tool env name params w =
    match session (client w) with
    | None =>
        (Raise (Exn AttributeError
                  "'NoneType' object has no attribute 'call_tool'"), w)
    | Some _ =>
        match session_call_tool env (events w) name params with
        | Returns res => (Ok res, with_events w [EvCallTool name params])
        | Raises e => (Raise e, with_events w [EvCallTool name params])
        end
    end.
Proof.
  unfold call_tool, bind, get_self, get_events, emit.
  destruct (session (client w)); [|reflexivity].
  cbn [events]. destruct (session_call_tool env (events w) name params);
    reflexivity.
Qed.

(** What [call_mcp_tool] does, case by case. *)
Lemma call_mcp_tool_run (name : string) (params : pydict pyval) (w : world) :
  call_mcp_tool env name params w =
    match available_tools (client w) with
    | None =>
        (Raise (Exn AttributeError
                  "'MCPClient' object has no attribute 'available_tools'"), w)
    | Some tools =>
        if PyDict.mem name tools
        then
          match session (client w) with
          | None =>
              (Ok ("Error calling tool " +:+ name +:+ ": "
                   +:+ "'NoneType' object has no attribute 'call_tool'"), w)
          | Some _ =>
              match session_call_tool env (events w) name params with
              | Returns res =>
                  (Ok match result_content res with
                      | ContentList items =>
                          PyStr.join PyStr.LF (map str items)
                      | ContentOther v => str v
                      end,
                   with_events w [EvCallTool name params])
              | Raises e =>
                  if isinstance_Exception e
                  then (Ok ("Error calling tool " +:+ name +:+ ": "
                            +:+ exn_str e),
                        with_events w [EvCallTool name params])
                  else (Raise e, with_events w [EvCallTool name params])
              end
          end
        else (Ok ("Tool " +:+ name +:+ " not available."), w)
    end.
Proof.
  unfold call_mcp_tool, bind at 1. rewrite get_available_tools_run.
  destruct (available_tools (client w)) as [tools|]; [|reflexivity].
  destruct (PyDict.mem name tools); [|reflexivity].
  unfold try_except, bind. rewrite call_tool_run.
  destruct (session (client w)); [|reflexivity].
  destruct (session_call_tool env (events w) name params) as [res|e].
  - destruct (result_content res); reflexivity.
  - destruct (isinstance_Exception e); reflexivity.
Qed.

(** X3.  With the registry in place and a remote call that fails, if at
    all, with an exception of class [Exception], [call_mcp_tool] returns a
    string; it reads no input and leaves the client object alone. *)
Theorem call_mcp_tool_returns_text
    (name : string) (params : pydict pyval) (w : world) (tools : pydict Tool) :
  available_tools (client w) = Some tools ->
  (forall e, session_call_tool env (events w) name params = Raises e ->
             isinstance_Exception e = true) ->
  exists text w',
    call_mcp_tool env name params w = (Ok text, w')
    /\ client w' = client w /\ stdin w' = stdin w.
Proof.
  intros Ht Hp. rewrite call_mcp_tool_run, Ht.
  destruct (PyDict.mem name tools); [|eauto].
  destruct (session (client w)); [|eauto].
  destruct (session_call_tool env (events w) name params) as [res|e]; [eauto|].
  rewrite (Hp e eq_refl). eauto.
Qed.

(** [call_mcp_tool] makes the one remote call or none. *)
Lemma call_mcp_tool_events
    (name : string) (params : pydict pyval) (w w' : world) (r : result string) :
  call_mcp_tool env name params w = (r, w') ->
  client w' = client w /\ stdin w' = stdin w /\
  (events w' = events w \/ events w' = events w ++ [EvCallTool name params]).
Proof.
  rewrite call_mcp_tool_run.
  destruct (available_tools (client w)) as [tools|].
  - destruct (PyDict.mem name tools).
    + destruct (session (client w)).
      * destruct (session_call_tool env (events w) name params) as [res|e].
        -- intros E. injection E as _ <-. auto.
        -- destruct (isinstance_Exception e); intros E; injection E as _ <-;
             auto.
      * intros E. injection E as _ <-. auto.
    + intros E. injection E as _ <-. auto.
  - intros E. injection E as _ <-. auto.
Qed.

End MoreToolInvocation.

(* ------------------------------------------------------------------ *)
(** ** Query routing, continued                                         *)
(* ------------------------------------------------------------------ *)

Section MoreRouting.

Context {Obj : Type} `{Str Obj} (env : Env Obj).

Lemma chat_run (model : string) (messages : list (pydict pyval)) (w : world) :
  chat env model messages w =
    match ollama_chat env (events w) model messages with
    | Returns response => (Ok response, with_events w [EvChat model messages])
    | Raises e => (Raise e, with_events w [EvChat model messages])
    end.
Proof.
  unfold chat, bind, get_events, emit. cbn [events].
  destruct (ollama_chat env (events w) model messages); reflexivity.
Qed.

(** X1.  A query with neither trigger in it goes to the chat model as one
    message of role [user] whose content is the query, and the content of
    the reply is returned as it is. *)
Theorem chat_fallback_returns_reply
    (query : string) (w : world) (response : chat_response) :
  ~ contains_ignoring_case alert_trigger query ->
  ~ contains_ignoring_case forecast_trigger query ->
  ollama_chat env (events w) "llama3.2:latest"
    [[("role", VStr "user"); ("content", VStr query)]] = Returns response ->
  process_query env query w =
    (Ok (message_content (message response)),
     with_events w
       [EvChat "llama3.2:latest"
          [[("role", VStr "user"); ("content", VStr query)]]]).
Proof.
  intros Ha Hf Hc.
  rewrite process_query_chat
    by (apply alert_test_false || apply forecast_test_false; assumption).
  unfold chat_route, bind. rewrite chat_run, Hc. reflexivity.
Qed.

(** X2.  A query without the alert trigger, in which the last lower-case
    occurrence of the forecast trigger is followed by exactly two tokens
    that [float] accepts: the answer is that of [get_forecast], called with
    the first value as latitude and the second as longitude. *)
Theorem forecast_lowercase_calls_tool
    (query pre suf a b : string) (x y : float) (w : world) :
  ~ contains_ignoring_case alert_trigger query ->
  last_occurrence forecast_trigger query pre suf ->
  PyStr.split_ws suf = [a; b] ->
  py_float env a = Some x ->
  py_float env b = Some y ->
  process_query env query w =
    call_mcp_tool env "get_forecast"
      [("latitude", VFloat x); ("longitude", VFloat y)] w.
Proof.
  intros Ha Hl Ht Hx Hy.
  rewrite process_query_forecast.
  - rewrite (after_split_last forecast_trigger query pre suf eq_refl Hl).
    apply (forecast_route_valid env _ a b x y); [|assumption|assumption].
    rewrite split_ws_strip. exact Ht.
  - apply alert_test_false, Ha.
  - destruct Hl as [-> _].
    rewrite !PyStrFacts.lower_app. apply PyStrFacts.contains_intro.
Qed.

(** The unpacking leaves the world alone. *)
Lemma unpack_lat_lon_world
    (tokens : list string) (w w' : world) (r : result (float * float)) :
  unpack_lat_lon env tokens w = (r, w') ->
  w' = w /\
  match r with
  | Ok (x, y) =>
      exists a b, tokens = [a; b] /\ py_float env a = Some x
                  /\ py_float env b = Some y
  | Raise e => isinstance_ValueError e = true
  | OutOfFuel => False
  end.
Proof.
  destruct tokens as [|a [|b [|c rest]]]; cbn [unpack_lat_lon];
    unfold bind, float_of_str, raise, ret.
  - intros E. injection E as <- <-. auto.
  - destruct (py_float env a); intros E; injection E as <- <-; auto.
  - destruct (py_float env a) as [x|] eqn:Ea;
      [|intros E; injection E as <- <-; auto].
    destruct (py_float env b) as [y|] eqn:Eb;
      intros E; injection E as <- <-; [|auto].
    split; [reflexivity|]. exists a, b. auto.
  - destruct (py_float env a); [|intros E; injection E as <- <-; auto].
    destruct (py_float env b); [|intros E; injection E as <- <-; auto].
    destruct (py_float env c); intros E; injection E as <- <-; auto.
Qed.

(** X18.  [lat, lon = map(float, tokens)] yields a pair exactly when there
    are two tokens and [float] accepts both; whatever it raises is a
    [ValueError]; and the world is untouched either way. *)
Theorem unpack_lat_lon_exactly_two (tokens : list string) (w : world) :
  (forall x y w',
      unpack_lat_lon env tokens w = (Ok (x, y), w') <->
      (w' = w /\ exists a b, tokens = [a; b] /\ py_float env a = Some x
                             /\ py_float env b = Some y))
  /\ (forall e w',
        unpack_lat_lon env tokens w = (Raise e, w') ->
        isinstance_ValueError e = true /\ w' = w).
Proof.
  split.
  - intros x y w'. split.
    + intros E. exact (unpack_lat_lon_world _ _ _ _ E).
    + intros [-> [a [b [-> [Ea Eb]]]]].
      cbn [unpack_lat_lon]. unfold bind, float_of_str, ret.
      rewrite Ea, Eb. reflexivity.
  - intros e w' E. destruct (unpack_lat_lon_world _ _ _ _ E). auto.
Qed.

(** The forecast route makes the call of [get_forecast] or none. *)
Lemma forecast_route_events (location : string) (w w' : world)
    (r : result string) :
  forecast_route env location w = (r, w') ->
  client w' = client w /\ stdin w' = stdin w /\
  (events w' = events w \/
   exists lat lon,
     events w' = events w ++
       [EvCallTool "get_forecast"
          [("latitude", VFloat lat); ("longitude", VFloat lon)]]).
Proof.
  unfold forecast_route, try_except, bind at 1.
  destruct (unpack_lat_lon env (PyStr.split_ws location) w) as [ru wu] eqn:Eu.
  destruct (unpack_lat_lon_world _ _ _ _ Eu) as [-> Hr].
  destruct ru as [[x y]|e|]; [| |contradiction].
  - cbn [fst snd].
    destruct (call_mcp_tool env "get_forecast" _ w) as [rc wc] eqn:Ec.
    destruct (call_mcp_tool_events env _ _ _ _ _ Ec) as [Hc [Hs He]].
    assert (Hev : events wc = events w \/
                  exists lat lon,
                    events wc = events w ++
                      [EvCallTool "get_forecast"
                         [("latitude", VFloat lat); ("longitude", VFloat lon)]])
      by (destruct He; eauto).
    destruct rc as [s|e|].
    + intros E. injection E as _ <-. repeat split; assumption.
    + rewrite (call_mcp_tool_no_ValueError env _ _ _ _ _ Ec).
      intros E. injection E as _ <-. repeat split; assumption.
    + intros E. injection E as _ <-. repeat split; assumption.
  - rewrite Hr. intros E. injection E as _ <-. auto.
Qed.

(** X11.  One query makes at most one call to the outside: none, or one
    call of [get_alerts] with a state, or one call of [get_forecast] with a
    latitude and a longitude, or one call of the chat model with the query;
    it reads no input and leaves the client object alone. *)
Theorem process_query_one_call
    (query : string) (w w' : world) (r : result string) :
  process_query env query w = (r, w') ->
  client w' = client w /\ stdin w' = stdin w /\
  (events w' = events w
   \/ (exists state,
         events w' = events w ++
           [EvCallTool "get_alerts" [("state", VStr state)]])
   \/ (exists lat lon,
         events w' = events w ++
           [EvCallTool "get_forecast"
              [("latitude", VFloat lat); ("longitude", VFloat lon)]])
   \/ events w' = events w ++
        [EvChat "llama3.2:latest"
           [[("role", VStr "user"); ("content", VStr query)]]]).
Proof.
  destruct (PyStr.contains alert_trigger (PyStr.lower query)) eqn:Ea.
  - rewrite process_query_alert by exact Ea. unfold alerts_route. intros E.
    destruct (call_mcp_tool_events env _ _ _ _ _ E) as [Hc [Hs [He|He]]];
      (split; [exact Hc|split; [exact Hs|]]).
    + left. exact He.
    + right. left. eexists. exact He.
  - destruct (PyStr.contains forecast_trigger (PyStr.lower query)) eqn:Ef.
    + rewrite process_query_forecast by assumption. intros E.
      destruct (forecast_route_events _ _ _ _ E) as [Hc [Hs [He|He]]];
        (split; [exact Hc|split; [exact Hs|]]).
      * left. exact He.
      * right. right. left. exact He.
    + rewrite process_query_chat by assumption.
      unfold chat_route, bind. rewrite chat_run.
      destruct (ollama_chat env (events w) _ _); intros E;
        injection E as _ <-;
        (split; [reflexivity|split; [reflexivity|]]);
        right; right; right; reflexivity.
Qed.

(** X13.  The state handed to [get_alerts] has no lower-case letter in it
    and neither starts nor ends with whitespace. *)
Theorem alert_state_shape (query : string) (w : world) :
  exists state,
    alert_state query w = (Ok state, w)
    /\ has_lower state = false
    /\ first_is_space state = false
    /\ last_is_space state = false.
Proof.
  eexists. split; [apply alert_state_value|].
  split; [apply has_lower_upper|].
  rewrite first_is_space_upper, last_is_space_upper. unfold PyStr.strip.
  split.
  - apply first_is_space_rstrip, first_is_space_lstrip.
  - apply last_is_space_rstrip.
Qed.

(** X17.  An ASCII query that has the alert trigger in it, but nowhere in
    lower case: nothing is cut off, and the state is the whole query,
    stripped and upper-cased. *)
Theorem alert_capitalised_sends_whole_query (query : string) (w : world) :
  is_ascii query = true ->
  contains_ignoring_case alert_trigger query ->
  PyStr.contains alert_trigger query = false ->
  process_query env query w =
    call_mcp_tool env "get_alerts"
      [("state", VStr (PyStr.upper (PyStr.strip query)))] w.
Proof.
  intros _ Ha Hn. rewrite process_query_alert by (apply alert_test_iff, Ha).
  rewrite after_split_absent by exact Hn. reflexivity.
Qed.

(** X16.  A query on the forecast route that has the forecast trigger
    nowhere in lower case is answered with the invalid-format text,
    whatever follows the trigger and whatever [float] accepts: nothing is
    cut off, and the trigger alone is three tokens. *)
Theorem forecast_capitalised_always_rejected (query : string) (w : world) :
  ~ contains_ignoring_case alert_trigger query ->
  contains_ignoring_case forecast_trigger query ->
  PyStr.contains forecast_trigger query = false ->
  process_query env query w =
    (Ok "Invalid location format. Please provide latitude and longitude.", w).
Proof.
  intros Ha Hf Hn.
  rewrite process_query_forecast
    by (apply alert_test_false, Ha || apply forecast_test_iff, Hf).
  rewrite after_split_absent by exact Hn.
  apply forecast_route_invalid. intros a b x y E _ _.
  rewrite split_ws_strip in E.
  pose proof (forecast_trigger_three_tokens query Hf) as Hlen.
  rewrite E in Hlen. simpl in Hlen. lia.
Qed.

End MoreRouting.

(* ------------------------------------------------------------------ *)
(** ** Start-up, the loop and the lifecycle, continued                  *)
(* ------------------------------------------------------------------ *)

Lemma with_events_nil (w : world) : with_events w [] = w.
Proof. unfold with_events. rewrite app_nil_r. destruct w; reflexivity. Qed.

Section Gentle.

Lemma gentle_ret (A : Type) (a : A) : gentle (ret a).
Proof. intros w r w' E. injection E as <- <-. auto. Qed.

Lemma gentle_raise (A : Type) (e : exn) :
  isinstance_Exception e = true -> gentle (@raise A e).
Proof. intros He w r w' E. injection E as <- <-. auto. Qed.

Lemma gentle_bind (A B : Type) (c : M A) (k : A -> M B) :
  gentle c -> (forall a, gentle (k a)) -> gentle (bind c k).
Proof.
  intros Hc Hk w r w' E. unfold bind in E.
  destruct (c w) as [[a|e|] w1] eqn:Ec;
    destruct (Hc _ _ _ Ec) as [Hs [Hcl Hr]].
  - destruct (Hk a _ _ _ E) as [Hs' [Hcl' Hr']].
    repeat split; [congruence | congruence | exact Hr'].
  - injection E as <- <-. auto.
  - contradiction.
Qed.

Lemma gentle_try_except (A : Type) (catches : exn -> bool)
    (body : M A) (handler : exn -> M A) :
  gentle body -> (forall e, gentle (handler e)) ->
  gentle (try_except catches body handler).
Proof.
  intros Hb Hh w r w' E. unfold try_except in E.
  destruct (body w) as [[a|e|] w1] eqn:Eb;
    destruct (Hb _ _ _ Eb) as [Hs [Hcl Hr]].
  - injection E as <- <-. auto.
  - destruct (catches e).
    + destruct (Hh e _ _ _ E) as [Hs' [Hcl' Hr']].
      repeat split; [congruence | congruence | exact Hr'].
    + injection E as <- <-. auto.
  - contradiction.
Qed.

Lemma gentle_emit (ev : event) : gentle (emit ev).
Proof. intros w r w' E. injection E as <- <-. auto. Qed.

Lemma gentle_get_events : gentle get_events.
Proof. intros w r w' E. injection E as <- <-. auto. Qed.

Lemma gentle_get_self : gentle get_self.
Proof. intros w r w' E. injection E as <- <-. auto. Qed.

Lemma gentle_of_outcome (A : Type) (o : outcome A) :
  (forall e, o = Raises e -> isinstance_Exception e = true) ->
  gentle (of_outcome o).
Proof.
  intros Ho. destruct o as [a|e]; [apply gentle_ret|].
  apply gentle_raise, Ho. reflexivity.
Qed.

End Gentle.

Create HintDb gentle.

#[local] Hint Resolve gentle_ret gentle_get_events gentle_get_self gentle_emit
  : gentle.

Ltac gentle_step :=
  first
    [ solve [auto with gentle]
    | apply gentle_raise; reflexivity
    | apply gentle_bind; [|intros ?]
    | apply gentle_try_except; [|intros ?]
    | progress cbv zeta
    | match goal with
      | |- gentle (match ?x with _ => _ end) => destruct x
      end ].

Section MoreLoop.

Context {Obj : Type} `{Str Obj} (env : Env Obj).

Lemma gentle_call_mcp_tool (name : string) (params : pydict pyval) :
  polite env -> gentle (call_mcp_tool env name params).
Proof.
  intros [Htool _]. unfold call_mcp_tool, get_available_tools, call_tool.
  repeat first [ apply gentle_of_outcome; intros e; apply Htool | gentle_step ].
Qed.

Lemma gentle_unpack_lat_lon (tokens : list string) :
  gentle (unpack_lat_lon env tokens).
Proof. unfold unpack_lat_lon, float_of_str. repeat gentle_step. Qed.

Lemma gentle_process_query (query : string) :
  polite env -> gentle (process_query env query).
Proof.
  intros Hp. pose proof Hp as [_ Hchat].
  unfold process_query, alert_state, forecast_location, str_split, index_last,
    chat.
  repeat first
    [ apply gentle_call_mcp_tool; exact Hp
    | apply gentle_unpack_lat_lon
    | apply gentle_of_outcome; intros e; apply Hchat
    | gentle_step ].
Qed.

Lemma input_line (prompt line : string) (rest : list stdin_item) (w : world) :
  stdin w = Line line :: rest ->
  input prompt w =
    (Ok line,
     {| client := client w; stdin := rest;
        events := events w ++ [EvInput prompt] |}).
Proof.
  intros Hs. unfold input, bind, emit. cbn [stdin client events].
  rewrite Hs. reflexivity.
Qed.

(** A turn on a line that is no [quit], with polite collaborators, ends
    with [Continue] and has used up that line. *)
Lemma chat_loop_body_continues
    (line : string) (rest : list stdin_item) (w : world) :
  polite env ->
  stdin w = Line line :: rest ->
  is_quit line = false ->
  exists w',
    chat_loop_body env w = (Ok Continue, w')
    /\ stdin w' = rest /\ client w' = client w.
Proof.
  intros Hp Hs Hq.
  unfold chat_loop_body, try_except, chat_loop_try, bind at 1.
  rewrite (input_line _ line rest w Hs).
  unfold is_quit in Hq. rewrite Hq. unfold bind at 1.
  destruct (process_query env (PyStr.strip line) _) as [[s|e|] w1] eqn:Ep;
    destruct (gentle_process_query _ Hp _ _ _ Ep) as [Hs1 [Hc1 Hr]];
    cbn [stdin client] in Hs1, Hc1.
  - eexists. split; [reflexivity|]. cbn. auto.
  - rewrite Hr. eexists. split; [reflexivity|]. cbn. auto.
  - contradiction.
Qed.

(** With polite collaborators the loop reads on, line after line, to the
    first line that is [quit]. *)
Lemma while_true_reaches_quit
    (lines : list string) (last_line : string) (rest : list stdin_item)
    (fuel : nat) (w : world) :
  polite env ->
  stdin w = map Line lines ++ Line last_line :: rest ->
  forallb (fun line => negb (is_quit line)) lines = true ->
  is_quit last_line = true ->
  length lines < fuel ->
  exists w',
    while_true env fuel w = (Ok tt, w')
    /\ stdin w' = rest /\ client w' = client w.
Proof.
  intros Hp. revert fuel w.
  induction lines as [|line lines IH]; intros fuel w Hs Hl Hq Hf.
  - destruct fuel as [|fuel]; [simpl in Hf; lia|].
    rewrite (while_true_quit env fuel w last_line rest Hs Hq).
    eexists. split; [reflexivity|]. cbn. auto.
  - destruct fuel as [|fuel]; [simpl in Hf; lia|].
    cbn [map app] in Hs. cbn [forallb] in Hl.
    apply andb_true_iff in Hl as [Hl1 Hl].
    apply negb_true_iff in Hl1.
    destruct (chat_loop_body_continues line _ w Hp Hs Hl1)
      as [w1 [Eb [Hs1 Hc1]]].
    cbn [while_true]. unfold bind. rewrite Eb.
    destruct (IH fuel w1 Hs1 Hl Hq) as [w' [El [Hs' Hc']]];
      [simpl in Hf; lia|].
    exists w'. split; [exact El|]. split; [exact Hs' | congruence].
Qed.

(** X8.  With polite collaborators the session outlives every line that is
    no [quit], whatever those lines ask for, and ends at the first line
    that is: the loop returns, given fuel for that many turns, with the
    input consumed up to and including that line and the client object as
    it was. *)
Theorem loop_ends_at_first_quit
    (lines : list string) (last_line : string) (rest : list stdin_item)
    (fuel : nat) (w : world) :
  polite env ->
  stdin w = map Line lines ++ Line last_line :: rest ->
  forallb (fun line => negb (is_quit line)) lines = true ->
  is_quit last_line = true ->
  length lines < fuel ->
  exists w',
    while_true env fuel w = (Ok tt, w')
    /\ stdin w' = rest /\ client w' = client w.
Proof. exact (while_true_reaches_quit lines last_line rest fuel w). Qed.

(** After a turn that failed the loop is where it would be had it started
    from the state that turn left: it goes on to read the next line. *)
Lemma while_true_after_error (fuel : nat) (w w1 : world) (e : exn) :
  chat_loop_try env w = (Raise e, w1) ->
  isinstance_Exception e = true ->
  while_true env (S fuel) w =
    while_true env fuel
      (with_events w1 [EvPrint [PStr (PyStr.LF +:+ "Error: " +:+ exn_str e)]]).
Proof.
  intros Ht He. cbn [while_true]. unfold bind.
  rewrite (chat_loop_body_caught env w w1 e Ht He). reflexivity.
Qed.

(** C8.  An exception of class [Exception] that leaves the [try] block of
    a turn is printed as [Error: <str(e)>], the turn ends with [Continue],
    and the loop goes on from there to read the next line; a failure of the
    chat model is such an exception, as [process_query] lets it through;
    with collaborators that fail in this way only, [chat_loop] reads on,
    line after line and whatever the lines lead to, until the first line
    that is [quit]; it returns only after such a line, and what it raises
    is never of class [Exception]. *)
Theorem chat_loop_survives_errors :
  (forall (w w1 : world) (e : exn),
      chat_loop_try env w = (Raise e, w1) ->
      isinstance_Exception e = true ->
      chat_loop_body env w =
        (Ok Continue,
         with_events w1
           [EvPrint [PStr (PyStr.LF +:+ "Error: " +:+ exn_str e)]]))
  /\ (forall (fuel : nat) (w w1 : world) (e : exn),
      chat_loop_try env w = (Raise e, w1) ->
      isinstance_Exception e = true ->
      while_true env (S fuel) w =
        while_true env fuel
          (with_events w1
             [EvPrint [PStr (PyStr.LF +:+ "Error: " +:+ exn_str e)]]))
  /\ (forall (query : string) (w : world) (e : exn),
      ~ contains_ignoring_case alert_trigger query ->
      ~ contains_ignoring_case forecast_trigger query ->
      ollama_chat env (events w) "llama3.2:latest"
        [[("role", VStr "user"); ("content", VStr query)]] = Raises e ->
      process_query env query w =
        (Raise e,
         with_events w
           [EvChat "llama3.2:latest"
              [[("role", VStr "user"); ("content", VStr query)]]]))
  /\ (forall (lines : list string) (last_line : string)
             (rest : list stdin_item) (fuel : nat) (w : world),
      polite env ->
      stdin w = map Line lines ++ Line last_line :: rest ->
      forallb (fun line => negb (is_quit line)) lines = true ->
      is_quit last_line = true ->
      length lines < fuel ->
      exists w',
        chat_loop env fuel w = (Ok tt, w')
        /\ stdin w' = rest /\ client w' = client w)
  /\ (forall (fuel : nat) (w w' : world),
      chat_loop env fuel w = (Ok tt, w') ->
      exists items line,
        stdin w = items ++ Line line :: stdin w' /\ is_quit line = true)
  /\ (forall (fuel : nat) (w w' : world) (e : exn),
      chat_loop env fuel w = (Raise e, w') ->
      isinstance_Exception e = false).
Proof.
  split; [exact (chat_loop_body_caught env)|].
  split; [exact while_true_after_error|].
  split; [exact (chat_model_failure_propagates env)|].
  split; [|split].
  - intros lines last_line rest fuel w Hp Hs Hl Hq Hf.
    unfold chat_loop, bind, print, emit.
    match goal with
    | |- exists w', while_true env fuel ?wb = _ /\ _ =>
        destruct (while_true_reaches_quit lines last_line rest fuel wb
                    Hp Hs Hl Hq Hf) as [w' [E [Hs1 Hc1]]]
    end.
    exists w'. split; [exact E|]. split; [exact Hs1 | exact Hc1].
  - intros fuel w w' E. unfold chat_loop, bind, print, emit in E.
    apply while_true_ends_by_quit in E. exact E.
  - intros fuel w w' e E. unfold chat_loop, bind, print, emit in E.
    apply while_true_raises in E. exact E.
Qed.

(** X7.  At the end of the input the loop does not end: every turn prints
    the [EOFError] and goes on to the next, for as long as it is run. *)
Theorem end_of_input_never_ends (fuel : nat) (w : world) :
  stdin w = [] ->
  while_true env fuel w = (OutOfFuel, with_events w (eof_turns fuel)).
Proof.
  revert w; induction fuel as [|fuel IH]; intros w Hs.
  - cbn. unfold out_of_fuel. now rewrite with_events_nil.
  - cbn [while_true]. unfold bind.
    assert (Eb : chat_loop_body env w =
                 (Ok Continue,
                  with_events w
                    [EvInput (PyStr.LF +:+ "Query: ");
                     EvPrint [PStr (PyStr.LF +:+ "Error: EOF when reading a line")]])).
    { unfold chat_loop_body, try_except, chat_loop_try, bind at 1.
      unfold input, bind, emit. cbn [stdin client events]. rewrite Hs.
      cbn. unfold with_events. rewrite Hs, <- app_assoc. reflexivity. }
    rewrite Eb, IH by exact Hs.
    rewrite with_events_app. reflexivity.
Qed.

(** X14.  Whitespace around the word does not matter: a line that is
    [quit], in any letter case, between two runs of whitespace ends the
    loop, with the prompt as the only event of the turn. *)
Theorem padded_quit_ends_loop
    (fuel : nat) (w : world) (a line b : string) (rest : list stdin_item) :
  stdin w = Line (a +:+ line +:+ b) :: rest ->
  all_space a = true ->
  all_space b = true ->
  PyStr.lower line = "quit" ->
  while_true env (S fuel) w =
    (Ok tt,
     {| client := client w; stdin := rest;
        events := events w ++ [EvInput (PyStr.LF +:+ "Query: ")] |}).
Proof.
  intros Hs Ha Hb Hq. apply (while_true_quit env fuel w _ rest Hs).
  pose proof (lower_quit_is_quit line Hq) as Hl.
  unfold is_quit in *. rewrite strip_padding by assumption. exact Hl.
Qed.

(** X12.  However long it runs and however it ends, the chat loop leaves
    the client object (session, registry, exit stack) as it found it and
    neither enters nor releases a context. *)
Theorem chat_loop_keeps_client
    (fuel : nat) (w w' : world) (r : result unit) :
  chat_loop env fuel w = (r, w') ->
  client w' = client w /\
  exists evs,
    events w' = events w ++ evs /\ entered evs = [] /\ released evs = [].
Proof.
  intros E. destruct (steady_chat_loop env fuel _ _ _ E) as [Hc [_ [evs [He Hq]]]].
  split; [exact Hc|]. exists evs. split; [exact He|].
  apply quiet_entered, Hq.
Qed.

(** What a start-up that returns has done. *)
Lemma connect_to_server_ok (path : string) (w w' : world) :
  connect_to_server env path w = (Ok tt, w') ->
  PyStr.endswith ".py" path = true /\
  exists tools,
    session_list_tools env
      (events w ++ [EvEnter (StdioTransport "python" [path]); EvEnter Session;
                    EvInitialize]) = Returns tools
    /\ w' = {| client :=
                 {| session := Some tt;
                    exit_stack :=
                      Session :: StdioTransport "python" [path]
                      :: exit_stack (client w);
                    available_tools := Some (tools_by_name tools) |};
               stdin := stdin w;
               events := events w ++ startup_events path tools |}.
Proof.
  unfold connect_to_server.
  destruct (PyStr.endswith ".py" path); cbn [negb]; [|discriminate].
  unfold enter_async_context, bind, get_events, get_self, set_self, emit, print,
    emit.
  cbn [events client stdin session exit_stack available_tools].
  destruct (stdio_client_enter env (events w) "python" [path]); cbn;
    [discriminate|].
  destruct (client_session_enter env _); cbn; [discriminate|].
  destruct (session_initialize env _); cbn; [discriminate|].
  rewrite <- !app_assoc. cbn [app].
  destruct (session_list_tools env _) as [tools|e] eqn:El; cbn;
    [|discriminate].
  intros E. injection E as <-. split; [reflexivity|].
  exists tools. split; [reflexivity|].
  unfold startup_events. rewrite <- !app_assoc. reflexivity.
Qed.

(** X4.  When [connect_to_server] returns, the script is a [.py] file, the
    two contexts sit on the exit stack, the session is set, the registry
    is the one built from the tools the provider listed, their names have
    been printed, and no input has been read. *)
Theorem connect_to_server_success (path : string) (w w' : world) :
  connect_to_server env path w = (Ok tt, w') ->
  PyStr.endswith ".py" path = true /\
  session (client w') = Some tt /\
  exit_stack (client w') =
    Session :: StdioTransport "python" [path] :: exit_stack (client w) /\
  stdin w' = stdin w /\
  exists tools,
    session_list_tools env
      (events w ++ [EvEnter (StdioTransport "python" [path]); EvEnter Session;
                    EvInitialize]) = Returns tools
    /\ available_tools (client w') = Some (tools_by_name tools)
    /\ events w' = events w ++ startup_events path tools.
Proof.
  intros E. destruct (connect_to_server_ok _ _ _ E) as [Hp [tools [Hl ->]]].
  cbn. repeat split; try assumption. exists tools. auto.
Qed.

(** X6.  After a start-up that returned, a tool name the provider never
    lists is answered with [Tool <name> not available.] and no call is
    made. *)
Theorem connected_client_rejects_unlisted
    (path name : string) (params : pydict pyval) (w w' : world) :
  connect_to_server env path w = (Ok tt, w') ->
  (forall evs tools,
      session_list_tools env evs = Returns tools ->
      ~ In name (map tool_name tools)) ->
  call_mcp_tool env name params w' =
    (Ok ("Tool " +:+ name +:+ " not available."), w').
Proof.
  intros E Hn. destruct (connect_to_server_ok _ _ _ E) as [_ [tools [Hl ->]]].
  rewrite call_mcp_tool_run. cbn [client available_tools].
  destruct (PyDict.mem name (tools_by_name tools)) eqn:Em; [|reflexivity].
  exfalso. apply (Hn _ _ Hl).
  unfold PyDict.mem in Em.
  assert (Hg : PyDict.get name (tools_by_name tools) = last_named name tools).
  { unfold tools_by_name. rewrite fold_tools_get.
    destruct (last_named name tools); reflexivity. }
  rewrite Hg in Em. apply last_named_some.
  destruct (last_named name tools) as [f|]; [eauto | discriminate].
Qed.

Lemma connect_to_server_stdin (path : string) (w w' : world) (r : result unit) :
  connect_to_server env path w = (r, w') -> stdin w' = stdin w.
Proof.
  unfold connect_to_server.
  destruct (negb (PyStr.endswith ".py" path)).
  { intros E. injection E as _ <-. reflexivity. }
  unfold enter_async_context, bind, get_events, get_self, set_self, emit, print,
    emit.
  cbn [events client stdin session exit_stack available_tools].
  destruct (stdio_client_enter env (events w) "python" [path]); cbn;
    [intros E; injection E as _ <-; reflexivity|].
  destruct (client_session_enter env _); cbn;
    [intros E; injection E as _ <-; reflexivity|].
  destruct (session_initialize env _); cbn;
    [intros E; injection E as _ <-; reflexivity|].
  destruct (session_list_tools env _); cbn;
    intros E; injection E as _ <-; reflexivity.
Qed.

Lemma chat_loop_ends_by_quit (fuel : nat) (w w' : world) :
  chat_loop env fuel w = (Ok tt, w') ->
  exists items line,
    stdin w = items ++ Line line :: stdin w' /\ is_quit line = true.
Proof.
  intros E. unfold chat_loop, bind, print, emit in E.
  apply while_true_ends_by_quit in E. exact E.
Qed.

Lemma chat_loop_raises (fuel : nat) (w w' : world) (e : exn) :
  chat_loop env fuel w = (Raise e, w') -> isinstance_Exception e = false.
Proof.
  intros E. unfold chat_loop, bind, print, emit in E.
  apply while_true_raises in E. exact E.
Qed.

(** How [main] ends, given a server path: the start-up fails, or it
    returns and the loop runs; a run that has come to an end is followed
    by the clean-up, whose exception, if it raises one, is the one that
    comes out. *)
Lemma main_run (fuel : nat) (prog path : string) (argv : list string)
    (w w' : world) (r : result unit) :
  main env fuel (prog :: path :: argv) w = (r, w') ->
  r <> OutOfFuel ->
  exists rb wb rf,
    cleanup env wb = (rf, w')
    /\ ((rf = Ok tt /\ r = rb) \/ (exists e, rf = Raise e /\ r = Raise e))
    /\ ((exists e,
           rb = Raise e /\
           connect_to_server env path
             {| client := MCPClient_init; stdin := stdin w;
                events := events w |} = (Raise e, wb))
        \/ (exists w1,
              connect_to_server env path
                {| client := MCPClient_init; stdin := stdin w;
                   events := events w |} = (Ok tt, w1)
              /\ chat_loop env fuel w1 = (rb, wb))).
Proof.
  intros E Hr. unfold main in E. cbn [length Nat.ltb Nat.leb nth_error] in E.
  unfold bind at 1, set_self at 1, try_finally in E.
  unfold bind at 1 in E.
  destruct (connect_to_server env path _) as [rc w1] eqn:Ec.
  destruct (connect_to_server_run env _ _ _ _ Ec) as [Hrc _].
  destruct rc as [[]|e|]; [| |contradiction].
  - destruct (chat_loop env fuel w1) as [rl w2] eqn:El.
    destruct rl as [[]|e|];
      [| |injection E as <- _; contradiction];
      destruct (cleanup env w2) as [rf wf] eqn:Ef;
      (destruct rf as [[]|ef|]; injection E as <- <-; [| |contradiction]);
      eexists _, w2, _; (split; [exact Ef|]); split; eauto.
  - destruct (cleanup env w1) as [rf wf] eqn:Ef.
    destruct rf as [[]|ef|]; injection E as <- <-; [| |contradiction];
      eexists _, w1, _; (split; [exact Ef|]); split; eauto.
Qed.

Lemma cleanup_stdin (w w' : world) (r : result unit) :
  cleanup env w = (r, w') -> stdin w' = stdin w.
Proof.
  intros E. pose proof (cleanup_world env w) as Hw. rewrite E in Hw.
  cbn [snd] in Hw. rewrite Hw. reflexivity.
Qed.

(** X9.  [main] returns normally only after a line that is [quit] has been
    read: the input it leaves is what followed that line. *)
Theorem main_returns_after_quit
    (fuel : nat) (argv : list string) (w w' : world) :
  main env fuel argv w = (Ok tt, w') ->
  exists items line,
    stdin w = items ++ Line line :: stdin w' /\ is_quit line = true.
Proof.
  intros E. destruct argv as [|prog [|path argv]]; try discriminate E.
  destruct (main_run _ _ _ _ _ _ _ E) as [rb [wb [rf [Ef [Hr Hb]]]]];
    [discriminate|].
  destruct Hr as [[-> <-] | [e [_ Hr]]]; [|discriminate Hr].
  destruct Hb as [[e [Hr _]] | [w1 [Ec El]]]; [discriminate Hr|].
  destruct (chat_loop_ends_by_quit _ _ _ El) as [items [line [Hst Hq]]].
  exists items, line. split; [|exact Hq].
  rewrite (cleanup_stdin _ _ _ Ef), <- Hst. symmetry.
  apply (connect_to_server_stdin _ _ _ _ Ec).
Qed.

(** X10.  An exception of class [Exception] that comes out of [main] was
    raised by the start-up, with no input read, or by the clean-up on the
    way out; no turn of the loop lets one out.  Where no context raises
    when it is left, it was raised by the start-up. *)
Theorem main_error_is_startup_error
    (fuel : nat) (argv : list string) (w w' : world) (e : exn) :
  main env fuel argv w = (Raise e, w') ->
  isinstance_Exception e = true ->
  ((exists path w1,
       nth_error argv 1 = Some path
       /\ connect_to_server env path
            {| client := MCPClient_init; stdin := stdin w;
               events := events w |} = (Raise e, w1)
       /\ stdin w' = stdin w)
   \/ (exists w2, cleanup env w2 = (Raise e, w')))
  /\ ((forall evs r in_flight e',
         context_exit env evs r in_flight <> ExitRaises e') ->
      exists path w1,
        nth_error argv 1 = Some path
        /\ connect_to_server env path
             {| client := MCPClient_init; stdin := stdin w;
                events := events w |} = (Raise e, w1)
        /\ stdin w' = stdin w).
Proof.
  intros E He. destruct argv as [|prog [|path argv]].
  - cbn in E. injection E as <- _. discriminate He.
  - cbn in E. injection E as <- _. discriminate He.
  - destruct (main_run _ _ _ _ _ _ _ E) as [rb [wb [rf [Ef [Hr Hb]]]]];
      [discriminate|].
    assert (Hstart : rf = Ok tt ->
              exists path0 w1,
                nth_error (prog :: path :: argv) 1 = Some path0
                /\ connect_to_server env path0
                     {| client := MCPClient_init; stdin := stdin w;
                        events := events w |} = (Raise e, w1)
                /\ stdin w' = stdin w).
    { intros ->. destruct Hr as [[_ <-] | [e1 [Hr _]]]; [|discriminate Hr].
      destruct Hb as [[e1 [Hr Ec]] | [w1 [Ec El]]].
      - injection Hr as <-. exists path, wb. split; [reflexivity|].
        split; [exact Ec|].
        rewrite (cleanup_stdin _ _ _ Ef).
        apply (connect_to_server_stdin _ _ _ _ Ec).
      - apply chat_loop_raises in El. congruence. }
    split.
    + destruct Hr as [[-> _] | [e1 [-> Hr]]].
      * left. exact (Hstart eq_refl).
      * injection Hr as <-. right. exists wb. exact Ef.
    + intros Hq. apply Hstart.
      pose proof (release_all_quietly env (exit_stack (client wb))
                    {| client := {| session := session (client wb);
                                    exit_stack := [];
                                    available_tools :=
                                      available_tools (client wb) |};
                       stdin := stdin wb; events := events wb |} Hq) as Hok.
      unfold cleanup, bind, get_self, set_self in Ef.
      rewrite Ef in Hok. exact Hok.
Qed.

(** X15.  [cleanup] leaves every context on the exit stack, the last
    entered first and each of them once, whether or not leaving one
    raises, and it leaves the stack empty, so that a second [cleanup]
    returns at once and does nothing; where no context raises when it is
    left, [cleanup] returns normally. *)
Theorem cleanup_releases_then_nothing (w : world) :
  fst (cleanup env w) <> OutOfFuel
  /\ events (snd (cleanup env w))
       = events w ++ map EvRelease (exit_stack (client w))
  /\ exit_stack (client (snd (cleanup env w))) = []
  /\ cleanup env (snd (cleanup env w)) = (Ok tt, snd (cleanup env w))
  /\ ((forall evs r in_flight e,
         context_exit env evs r in_flight <> ExitRaises e) ->
      fst (cleanup env w) = Ok tt).
Proof.
  split; [apply cleanup_result|].
  rewrite cleanup_world. cbn [events client exit_stack].
  split; [reflexivity|]. split; [reflexivity|]. split; [reflexivity|].
  intros Hq. unfold cleanup, bind, get_self, set_self.
  apply release_all_quietly, Hq.
Qed.

End MoreLoop.

(* ------------------------------------------------------------------ *)
(** ** The further properties on the sample environment                 *)
(* ------------------------------------------------------------------ *)

Lemma sample_no_alert_trigger (query : string) :
  PyStr.contains alert_trigger (PyStr.lower query) = false ->
  ~ contains_ignoring_case alert_trigger query.
Proof. intros E Hc. apply alert_test_iff in Hc. congruence. Qed.

Lemma sample_no_forecast_trigger (query : string) :
  PyStr.contains forecast_trigger (PyStr.lower query) = false ->
  ~ contains_ignoring_case forecast_trigger query.
Proof. intros E Hc. apply forecast_test_iff in Hc. congruence. Qed.

(** The sample collaborators fail with plain exceptions only. *)
Lemma sample_env_polite : polite Sample.env.
Proof.
  split.
  - intros evs name params e E. cbn in E.
    destruct (String.eqb name "get_alerts"); [discriminate E|].
    destruct (String.eqb name "get_forecast"); [discriminate E|].
    injection E as <-. reflexivity.
  - intros evs model messages e E. cbn in E.
    repeat (match type of E with
            | context [match ?x with _ => _ end] => destruct x
            end; try discriminate E).
    injection E as <-. reflexivity.
Qed.

Lemma chat_fallback_returns_reply_witness :
  process_query Sample.env "tell me a joke" (Sample.at_console []) =
  (Ok "Hello!",
   with_events (Sample.at_console [])
     [EvChat "llama3.2:latest"
        [[("role", VStr "user"); ("content", VStr "tell me a joke")]]]).
Proof.
  apply (chat_fallback_returns_reply Sample.env "tell me a joke"
           (Sample.at_console []) (Sample.reply "Hello!")).
  - apply sample_no_alert_trigger. reflexivity.
  - apply sample_no_forecast_trigger. reflexivity.
  - reflexivity.
Defined.

Lemma forecast_lowercase_calls_tool_witness :
  process_query Sample.env "what is the weather forecast for 38.5  -120.2 "
    (Sample.at_console []) =
  call_mcp_tool Sample.env "get_forecast"
    [("latitude", VFloat (385 / 10)%float);
     ("longitude", VFloat (- (1202 / 10))%float)]
    (Sample.at_console []).
Proof.
  apply (forecast_lowercase_calls_tool Sample.env
           "what is the weather forecast for 38.5  -120.2 "
           "what is the " " 38.5  -120.2 " "38.5" "-120.2").
  - apply sample_no_alert_trigger. reflexivity.
  - apply (last_occurrence_intro forecast_trigger "what is the "
             " 38.5  -120.2 ").
    reflexivity.
  - reflexivity.
  - reflexivity.
  - reflexivity.
Defined.

Lemma call_mcp_tool_returns_text_witness :
  exists text w',
    call_mcp_tool Sample.env "get_radar" [] (Sample.at_console [])
      = (Ok text, w')
    /\ client w' = client (Sample.at_console [])
    /\ stdin w' = stdin (Sample.at_console []).
Proof.
  apply (call_mcp_tool_returns_text Sample.env "get_radar" []
           (Sample.at_console [])
           (tools_by_name [Sample.tool "get_alerts"; Sample.tool "get_forecast";
                           Sample.tool "get_radar"])).
  - reflexivity.
  - intros e E. cbn in E. injection E as <-. reflexivity.
Defined.

Lemma connect_to_server_success_witness :
  PyStr.endswith ".py" "weather.py" = true /\
  session (client (snd (connect_to_server Sample.env "weather.py"
                          (Sample.fresh [])))) = Some tt /\
  exit_stack (client (snd (connect_to_server Sample.env "weather.py"
                             (Sample.fresh [])))) =
    Session :: StdioTransport "python" ["weather.py"]
    :: exit_stack (client (Sample.fresh [])) /\
  stdin (snd (connect_to_server Sample.env "weather.py" (Sample.fresh []))) =
    stdin (Sample.fresh []) /\
  exists tools,
    session_list_tools Sample.env
      (events (Sample.fresh [])
       ++ [EvEnter (StdioTransport "python" ["weather.py"]); EvEnter Session;
           EvInitialize]) = Returns tools
    /\ available_tools
         (client (snd (connect_to_server Sample.env "weather.py"
                         (Sample.fresh [])))) = Some (tools_by_name tools)
    /\ events (snd (connect_to_server Sample.env "weather.py"
                      (Sample.fresh []))) =
       events (Sample.fresh []) ++ startup_events "weather.py" tools.
Proof.
  apply (connect_to_server_success Sample.env "weather.py" (Sample.fresh [])
           (snd (connect_to_server Sample.env "weather.py" (Sample.fresh [])))).
  reflexivity.
Defined.

Lemma connected_client_rejects_unlisted_witness :
  call_mcp_tool Sample.env "get_tides" []
    (snd (connect_to_server Sample.env "weather.py" (Sample.fresh []))) =
  (Ok "Tool get_tides not available.",
   snd (connect_to_server Sample.env "weather.py" (Sample.fresh []))).
Proof.
  apply (connected_client_rejects_unlisted Sample.env "weather.py" "get_tides"
           [] (Sample.fresh [])).
  - reflexivity.
  - intros evs tools E. injection E as <-. cbn.
    intros [E|[E|[E|[]]]]; discriminate E.
Defined.

Lemma end_of_input_never_ends_witness :
  while_true Sample.env 2 (Sample.at_console []) =
  (OutOfFuel, with_events (Sample.at_console []) (eof_turns 2)).
Proof.
  apply (end_of_input_never_ends Sample.env 2 (Sample.at_console [])).
  reflexivity.
Defined.

Lemma loop_ends_at_first_quit_witness :
  exists w',
    while_true Sample.env 3
      (Sample.at_console
         [Line "weather alert in ca"; Line "boom"; Line " Quit "; Line "more"])
      = (Ok tt, w')
    /\ stdin w' = [Line "more"]
    /\ client w' = client (Sample.at_console []).
Proof.
  apply (loop_ends_at_first_quit Sample.env ["weather alert in ca"; "boom"]
           " Quit " [Line "more"] 3
           (Sample.at_console
              [Line "weather alert in ca"; Line "boom"; Line " Quit ";
               Line "more"])).
  - exact sample_env_polite.
  - reflexivity.
  - reflexivity.
  - reflexivity.
  - simpl. lia.
Defined.

Lemma main_returns_after_quit_witness :
  exists items line,
    stdin (Sample.fresh [Line "hello"; Line "quit"; Line "more"]) =
      items ++ Line line
      :: stdin (snd (main Sample.env 5 ["client.py"; "weather.py"]
                       (Sample.fresh [Line "hello"; Line "quit"; Line "more"])))
    /\ is_quit line = true.
Proof.
  apply (main_returns_after_quit Sample.env 5 ["client.py"; "weather.py"]
           (Sample.fresh [Line "hello"; Line "quit"; Line "more"])).
  reflexivity.
Defined.

Lemma main_error_is_startup_error_witness :
  ((exists path w1,
       nth_error ["client.py"; "missing.py"] 1 = Some path
       /\ connect_to_server Sample.env path
            {| client := MCPClient_init;
               stdin := stdin (Sample.fresh [Line "hello"]);
               events := events (Sample.fresh [Line "hello"]) |}
          = (Raise (Exn Exception_ "No such file or directory"), w1)
       /\ stdin (snd (main Sample.env 5 ["client.py"; "missing.py"]
                       (Sample.fresh [Line "hello"])))
          = stdin (Sample.fresh [Line "hello"]))
   \/ (exists w2,
         cleanup Sample.env w2
         = (Raise (Exn Exception_ "No such file or directory"),
            snd (main Sample.env 5 ["client.py"; "missing.py"]
                   (Sample.fresh [Line "hello"])))))
  /\ ((forall evs r in_flight e',
         context_exit Sample.env evs r in_flight <> ExitRaises e') ->
      exists path w1,
        nth_error ["client.py"; "missing.py"] 1 = Some path
        /\ connect_to_server Sample.env path
             {| client := MCPClient_init;
                stdin := stdin (Sample.fresh [Line "hello"]);
                events := events (Sample.fresh [Line "hello"]) |}
           = (Raise (Exn Exception_ "No such file or directory"), w1)
        /\ stdin (snd (main Sample.env 5 ["client.py"; "missing.py"]
                        (Sample.fresh [Line "hello"])))
           = stdin (Sample.fresh [Line "hello"])).
Proof.
  apply (main_error_is_startup_error Sample.env 5 ["client.py"; "missing.py"]
           (Sample.fresh [Line "hello"])
           (snd (main Sample.env 5 ["client.py"; "missing.py"]
                   (Sample.fresh [Line "hello"])))
           (Exn Exception_ "No such file or directory")).
  - reflexivity.
  - reflexivity.
Defined.

Lemma process_query_one_call_witness :
  let w' := snd (process_query Sample.env "weather alert in ca"
                   (Sample.at_console [])) in
  client w' = client (Sample.at_console []) /\
  stdin w' = stdin (Sample.at_console []) /\
  (events w' = events (Sample.at_console [])
   \/ (exists state,
         events w' = events (Sample.at_console []) ++
           [EvCallTool "get_alerts" [("state", VStr state)]])
   \/ (exists lat lon,
         events w' = events (Sample.at_console []) ++
           [EvCallTool "get_forecast"
              [("latitude", VFloat lat); ("longitude", VFloat lon)]])
   \/ events w' = events (Sample.at_console []) ++
        [EvChat "llama3.2:latest"
           [[("role", VStr "user"); ("content", VStr "weather alert in ca")]]]).
Proof.
  apply (process_query_one_call Sample.env "weather alert in ca"
           (Sample.at_console [])
           (snd (process_query Sample.env "weather alert in ca"
                   (Sample.at_console [])))
           (fst (process_query Sample.env "weather alert in ca"
                   (Sample.at_console [])))).
  reflexivity.
Defined.

Lemma chat_loop_keeps_client_witness :
  client (snd (chat_loop Sample.env 3
                 (Sample.at_console [Line "weather alert in ca"; Line "quit"])))
    = Sample.connected /\
  exists evs,
    events (snd (chat_loop Sample.env 3
                   (Sample.at_console
                      [Line "weather alert in ca"; Line "quit"])))
      = [] ++ evs
    /\ entered evs = [] /\ released evs = [].
Proof.
  apply (chat_loop_keeps_client Sample.env 3
           (Sample.at_console [Line "weather alert in ca"; Line "quit"])
           _ (Ok tt)).
  reflexivity.
Defined.

Lemma padded_quit_ends_loop_witness :
  while_true Sample.env 1 (Sample.at_console [Line "  QuIt "; Line "more"]) =
  (Ok tt,
   {| client := Sample.connected; stdin := [Line "more"];
      events := [] ++ [EvInput (PyStr.LF +:+ "Query: ")] |}).
Proof.
  apply (padded_quit_ends_loop Sample.env 0
           (Sample.at_console [Line "  QuIt "; Line "more"])
           "  " "QuIt" " " [Line "more"]);
    reflexivity.
Defined.

Lemma forecast_capitalised_always_rejected_witness :
  process_query Sample.env "Weather Forecast for 38.5 -120.2"
    (Sample.at_console []) =
  (Ok "Invalid location format. Please provide latitude and longitude.",
   Sample.at_console []).
Proof.
  apply (forecast_capitalised_always_rejected Sample.env
           "Weather Forecast for 38.5 -120.2" (Sample.at_console [])).
  - apply sample_no_alert_trigger. reflexivity.
  - exists "", "Weather Forecast for", " 38.5 -120.2". split; reflexivity.
  - reflexivity.
Defined.

Lemma alert_capitalised_sends_whole_query_witness :
  process_query Sample.env " any Weather alert in tx" (Sample.at_console []) =
  call_mcp_tool Sample.env "get_alerts"
    [("state", VStr "ANY WEATHER ALERT IN TX")] (Sample.at_console []).
Proof.
  apply (alert_capitalised_sends_whole_query Sample.env
           " any Weather alert in tx" (Sample.at_console [])).
  - reflexivity.
  - exists " any ", "Weather alert in", " tx". split; reflexivity.
  - reflexivity.
Defined.

(** Three lines and then [quit]: the chat model is down at the first, the
    second asks for a tool that is broken, the third is answered; the loop
    reads all of them and ends at [quit]. *)
Lemma chat_loop_survives_errors_witness :
  (chat_loop_body Sample.env (Sample.at_console [Line "boom"; Line "Quit"]) =
     (Ok Continue,
      with_events
        (snd (chat_loop_try Sample.env
                (Sample.at_console [Line "boom"; Line "Quit"])))
        [EvPrint [PStr (PyStr.LF +:+ "Error: Failed to connect to Ollama")]]))
  /\ (exists w',
        chat_loop Sample.env 4
          (Sample.at_console
             [Line "boom"; Line "weather alert in ca"; Line "hello";
              Line "quit"; Line "more"])
        = (Ok tt, w')
        /\ stdin w' = [Line "more"]
        /\ client w' = client (Sample.at_console [])).
Proof.
  split.
  - apply (proj1 (chat_loop_survives_errors Sample.env)
             (Sample.at_console [Line "boom"; Line "Quit"]) _
             (Exn Exception_ "Failed to connect to Ollama"));
      reflexivity.
  - apply (proj1 (proj2 (proj2 (proj2 (chat_loop_survives_errors Sample.env))))
             ["boom"; "weather alert in ca"; "hello"] "quit" [Line "more"] 4
             (Sample.at_console
                [Line "boom"; Line "weather alert in ca"; Line "hello";
                 Line "quit"; Line "more"])).
    + exact sample_env_polite.
    + reflexivity.
    + reflexivity.
    + reflexivity.
    + simpl. lia.
Defined.

(** The events of such a run: after the error of the first turn comes the
    prompt of the second. *)
Example error_then_next_line :
  events (snd (while_true Sample.env 3
                 (Sample.at_console
                    [Line "boom"; Line "weather alert in ca"; Line "quit"]))) =
  [EvInput (PyStr.LF +:+ "Query: ");
   EvChat "llama3.2:latest" [[("role", VStr "user"); ("content", VStr "boom")]];
   EvPrint [PStr (PyStr.LF +:+ "Error: Failed to connect to Ollama")];
   EvInput (PyStr.LF +:+ "Query: ");
   EvCallTool "get_alerts" [("state", VStr "CA")];
   EvPrint [PStr (PyStr.LF +:+ "Event: Flood Watch" +:+ PyStr.LF
                  +:+ "Area: Sacramento")];
   EvInput (PyStr.LF +:+ "Query: ")].
Proof. reflexivity. Qed.

(** Whitespace beyond ASCII: the no-break space separates tokens and is
    stripped, as [str.split] and [str.strip] have it. *)
Example no_break_space_separates :
  PyStr.split_ws ("38.5" +:+ PyStr.NBSP +:+ "-120.2") = ["38.5"; "-120.2"]
  /\ is_quit ("quit" +:+ PyStr.NBSP) = true
  /\ events (snd (process_query Sample.env
                     ("weather forecast for 38.5" +:+ PyStr.NBSP +:+ "-120.2")
                     (Sample.at_console []))) =
     [EvCallTool "get_forecast"
        [("latitude", VFloat (385 / 10)%float);
         ("longitude", VFloat (- (1202 / 10))%float)]].
Proof. repeat split; reflexivity. Qed.

(** Letters beyond ASCII: the sharp s becomes [SS] in upper case. *)
Example sharp_s_in_upper_case :
  PyStr.upper ("stra" +:+ PyStr.SHARP_S +:+ "e") = "STRASSE".
Proof. reflexivity. Qed.

(** A session that fails on the way out: [main] raises what the exit
    raised, after a normal [quit], and both contexts have been left. *)
Example main_failing_exit :
  let run := main Sample.env_failing_exit 5 ["client.py"; "weather.py"]
               (Sample.fresh [Line "quit"]) in
  fst run = Raise (Exn Exception_ "session did not close") /\
  released (events (snd run)) = [Session; StdioTransport "python" ["weather.py"]].
Proof. split; reflexivity. Qed.

(** Two tools of one name: the later one is the one registered, in the
    place of the first. *)
Example registry_keeps_last :
  let tools := [{| tool_name := "a"; tool_schema := "1" |};
                {| tool_name := "b"; tool_schema := "2" |};
                {| tool_name := "a"; tool_schema := "3" |}] in
  PyDict.keys (tools_by_name tools) = ["a"; "b"] /\
  PyDict.get "a" (tools_by_name tools)
    = Some {| tool_name := "a"; tool_schema := "3" |}.
Proof. split; reflexivity. Qed.
